(** * train-trip-visualization: main.py

    A shallow embedding of [main.py] and the properties of its three
    decision procedures: station disambiguation
    ([convert_station_str_to_station]), the presentation and selection of
    journeys (the body of the script) and the rendering of a journey as a
    folium map ([draw]).

    The script is sequential Python. It talks to a console, to the HAFAS
    client and to the file system, and it may stop in three ways: by
    returning, by an exception, by [sys.exit]. It is embedded in one
    state-and-outcome monad [Py] over a [World]. *)

From Stdlib Require Import ZArith List String Ascii Bool Lia.
From Stdlib Require Import DecimalString.
Import ListNotations.

Local Open Scope string_scope.
Local Open Scope Z_scope.

Set Implicit Arguments.

(** ** What the script imports

    The values of the Python standard library the script only passes
    around, and the builtins it calls on them. A [float] is copied, never
    computed with; a [datetime] is formatted; [int] parses a line typed by
    the user and raises [ValueError] ([None]) on anything that is not an
    integer literal. *)

Class PyLib : Type := {
  float : Type;
  datetime : Type;
  timedelta : Type;
  (** [d.strftime(fmt)] *)
  strftime : datetime -> string -> string;
  (** [str(d)], as an f-string interpolates a datetime or a timedelta *)
  str_datetime : datetime -> string;
  str_timedelta : timedelta -> string;
  (** [int(s)] on a string *)
  int : string -> option Z
}.

(** [str(n)] of a Python int: decimal digits, a leading minus sign. *)
Definition str_int (n : Z) : string := NilZero.string_of_int (Z.to_int n).

(** [len(l)] *)
Definition len {A : Type} (l : list A) : Z := Z.of_nat (List.length l).

(** ** Data model *)

Section DataModel.
Context {lib : PyLib}.

(** Modelled from the spec: the classes [Station], [Stopover], [Leg] and
    [Journey] are declared by pyhafas, not by main.py. Section 3 of the
    specification gives their attributes, and main.py reads them under the
    names below (a stopover's [arrival] and [departure] are optional, a
    leg's are not; [stopovers] is a sequence, possibly empty). *)
Record Station : Type := mkStation {
  id : string;
  name : string;
  latitude : float;
  longitude : float
}.

Record Stopover : Type := mkStopover {
  stop : Station;
  stopover_arrival : option datetime;
  stopover_departure : option datetime
}.

Record Leg : Type := mkLeg {
  origin : Station;
  destination : Station;
  departure : datetime;
  arrival : datetime;
  stopovers : list Stopover
}.

Record Journey : Type := mkJourney {
  legs : list Leg;
  duration : timedelta
}.

(** *** The folium map *)

(** Modelled from the spec: [folium.Map], [Circle], [PolyLine] and the two
    controls are declared by folium, not by main.py. Section 3 of the
    specification describes the rendered map as a centre, circle markers
    (coordinate, radius, popup, colour, fill flag) and polylines
    (coordinates, colour): a constructor records the arguments main.py
    passes, and a map keeps its children in the order of the [add_to]
    calls. What folium itself does with them is not part of the script. *)
Inductive Element : Type :=
| LocateControl
| MeasureControl
| Circle (radius : Z) (location : float * float) (popup : string)
         (color : string) (fill : bool)
| PolyLine (locations : list (float * float)) (color : string).

Record Map : Type := mkMap {
  map_location : float * float;
  zoom_start : Z;
  children : list Element
}.

(** [element.add_to(map)] *)
Definition add_to (e : Element) (map : Map) : Map :=
  {| map_location := map_location map;
     zoom_start := zoom_start map;
     children := children map ++ [e] |}.

(** ** The world the script runs in *)

Inductive event : Type :=
| Printed (line : string)      (* print(line) *)
| Prompted (prompt : string).  (* the prompt written by input(prompt) *)

(** A journey is an object shared between the list the HAFAS client
    returned and whoever is handed one of its elements: journeys live in
    [heap] and are passed by address. A map is built and owned by one
    call of [draw] and is passed by value. *)
Definition addr : Type := nat.

Record World : Type := mkWorld {
  stdin : list string;              (* the lines the user will type *)
  console : list event;             (* what was written, oldest first *)
  heap : list Journey;              (* journey objects, by address *)
  files : list (string * Map)       (* saved maps, newest first *)
}.

Inductive exn : Type :=
| ValueError
| IndexError
| EOFError
| DanglingReference.  (* an address outside the heap; Python has none *)

Inductive outcome (A : Type) : Type :=
| Return (a : A)
| Raise (e : exn)
| SysExit (code : Z).

Arguments Raise {A} e.
Arguments SysExit {A} code.

Definition Py (A : Type) : Type := World -> outcome A * World.

Definition ret {A} (a : A) : Py A := fun w => (Return a, w).

Definition bind {A B} (m : Py A) (k : A -> Py B) : Py B :=
  fun w =>
    match m w with
    | (Return a, w') => k a w'
    | (Raise e, w') => (Raise e, w')
    | (SysExit c, w') => (SysExit c, w')
    end.

Definition raise {A} (e : exn) : Py A := fun w => (Raise e, w).

(** [sys.exit(code)]: SystemExit is caught by no handler of the script. *)
Definition sys_exit {A} (code : Z) : Py A := fun w => (SysExit code, w).

(** [try: body  except e1: h1  except e2: h2]: [handler e] is [None]
    for an exception no clause names. *)
Definition try_except {A} (body : Py A) (handler : exn -> option (Py A))
  : Py A :=
  fun w =>
    match body w with
    | (Raise e, w') =>
        match handler e with
        | Some h => h w'
        | None => (Raise e, w')
        end
    | r => r
    end.

Definition print (line : string) : Py unit :=
  fun w => (Return tt,
            {| stdin := stdin w;
               console := console w ++ [Printed line];
               heap := heap w;
               files := files w |}).

(** [input(prompt)]: writes the prompt, reads one line; EOFError at the
    end of the input. *)
Definition input (prompt : string) : Py string :=
  fun w =>
    let w1 := {| stdin := stdin w;
                 console := console w ++ [Prompted prompt];
                 heap := heap w;
                 files := files w |} in
    match stdin w with
    | [] => (Raise EOFError, w1)
    | line :: rest =>
        (Return line,
         {| stdin := rest;
            console := console w1;
            heap := heap w1;
            files := files w1 |})
    end.

(** [int(s)] *)
Definition py_int (s : string) : Py Z :=
  match int s with
  | Some n => ret n
  | None => raise ValueError
  end.

(** [l[i]]: a negative index counts from the end, an index outside
    [-len(l) .. len(l)-1] raises IndexError. *)
Definition index {A} (l : list A) (i : Z) : option A :=
  if (0 <=? i) && (i <? len l) then nth_error l (Z.to_nat i)
  else if (- len l <=? i) && (i <? 0) then nth_error l (Z.to_nat (len l + i))
  else None.

Definition subscript {A} (l : list A) (i : Z) : Py A :=
  match index l i with
  | Some a => ret a
  | None => raise IndexError
  end.

(** Reading through a reference to a journey object. *)
Definition load (journey : addr) : Py Journey :=
  fun w =>
    match nth_error (heap w) journey with
    | Some j => (Return j, w)
    | None => (Raise DanglingReference, w)
    end.

(** [map.save(filename)] *)
Definition save (map : Map) (filename : string) : Py unit :=
  fun w => (Return tt,
            {| stdin := stdin w;
               console := console w;
               heap := heap w;
               files := (filename, map) :: files w |}).

(** [for x in l: s = body(x, s)], the loop state passed along. *)
Fixpoint for_each {A S : Type} (l : list A) (body : A -> S -> Py S) (s : S)
  : Py S :=
  match l with
  | [] => ret s
  | x :: rest => bind (body x s) (fun s' => for_each rest body s')
  end.

(** [enumerate(l)], counting from [start]. *)
Fixpoint enumerate_from {A} (start : Z) (l : list A) : list (Z * A) :=
  match l with
  | [] => []
  | x :: rest => (start, x) :: enumerate_from (start + 1) rest
  end.

Definition enumerate {A} (l : list A) : list (Z * A) := enumerate_from 0 l.

End DataModel.

Arguments Raise {A} e.
Arguments SysExit {A} code.

Declare Scope py_scope.
Delimit Scope py_scope with py.
Notation "x <- m ;; k" := (bind m (fun x => k))
  (at level 61, m at next level, right associativity) : py_scope.
Notation "' pat <- m ;; k" := (bind m (fun x => match x with pat => k end))
  (at level 61, pat pattern, m at next level, right associativity) : py_scope.
Notation "m ;; k" := (bind m (fun _ => k))
  (at level 61, right associativity) : py_scope.

(** The HAFAS client of pyhafas: the two queries the script sends, and how
    a [Station] prints. *)
Class HafasClient {lib : PyLib} : Type := {
  hafas_locations : string -> list Station;
  hafas_journeys : Station -> Station -> datetime -> list Journey;
  str_station : Station -> string
}.

(** ** main.py *)

Section Script.
Context {lib : PyLib} {hafas_client : HafasClient}.
Local Open Scope py_scope.

(** [l[:stop]] *)
Definition slice_to {A} (l : list A) (stop : Z) : list A :=
  if stop <? 0 then firstn (Z.to_nat (Z.max 0 (len l + stop))) l
  else firstn (Z.to_nat stop) l.

(** [hafas_client.journeys(origin=..., destination=..., date=...)]: the
    journeys found are new objects; the list holds their addresses. *)
Definition journeys_query (origin destination : Station) (date : datetime)
  : Py (list addr) :=
  fun w =>
    let found := hafas_journeys origin destination date in
    (Return (seq (List.length (heap w)) (List.length found)),
     {| stdin := stdin w;
        console := console w;
        heap := heap w ++ found;
        files := files w |}).

(** *** Station disambiguation (lines 14-42) *)

Definition convert_station_str_to_station (station_str : string)
  : Py Station :=
  let locations := hafas_locations station_str in
  (if len locations =? 0 then
     print ("Could not find any stations with the name " ++ station_str) ;;
     sys_exit 1
   else ret tt) ;;
  if len locations =? 1 then
    shown <- subscript locations 0 ;;
    print ("Found the following station: " ++ str_station shown) ;;
    station <- subscript locations 0 ;;
    ret station
  else
    print "Found the following stations:" ;;
    for_each (enumerate (slice_to locations 5))
      (fun '(i, location) _ =>
         print (str_int (i + 1) ++ ": " ++ name location)) tt ;;
    try_except
      (line <- input "Please select the station you want to use: " ;;
       n <- py_int line ;;
       let start_station_index := n - 1 in
       station <- subscript locations start_station_index ;;
       ret station)
      (fun e =>
         match e with
         | ValueError => Some (print "Invalid input" ;; sys_exit 1)
         | IndexError => Some (print "Invalid index" ;; sys_exit 1)
         | _ => None
         end).

(** *** Rendering (lines 47-112) *)

Definition time_format : string := "%H:%M %d.%m.%Y".

Definition palette : list string := ["Red"; "Blue"; "Green"; "Black"; "White"].

(** The popup of a stopover's marker (line 74). *)
Definition stopover_popup (stopover : Stopover) : string :=
  name (stop stopover) ++ " - " ++
  match stopover_departure stopover with
  | Some d => strftime d time_format
  | None =>
      match stopover_arrival stopover with
      | Some a => strftime a time_format
      | None => "unknown"
      end
  end.

(** The body of the inner loop (lines 67-77). *)
Definition draw_stopover (stopover : Stopover)
    (st : list (float * float) * Map) : Py (list (float * float) * Map) :=
  let '(route_line_points, map) := st in
  let stop := stop stopover in
  let route_line_points :=
    (route_line_points ++ [(latitude stop, longitude stop)])%list in
  let map :=
    add_to (Circle 1000 (latitude stop, longitude stop)
              (stopover_popup stopover) "crimson" true) map in
  ret (route_line_points, map).

(** The body of the loop over the legs (lines 62-98). *)
Definition draw_leg (only_transfer_stations : bool) (leg : Leg)
    (st : Map * Z) : Py (Map * Z) :=
  let '(map, transfer_count) := st in
  let route_line_points := [] in
  '(route_line_points, map) <-
    (if Bool.eqb only_transfer_stations false then
       for_each (stopovers leg) draw_stopover (route_line_points, map)
     else
       let route_line_points :=
         (route_line_points
            ++ [(latitude (origin leg), longitude (origin leg))])%list in
       let map :=
         add_to (Circle 1000
                   (latitude (origin leg), longitude (origin leg))
                   (name (origin leg) ++ " - "
                      ++ strftime (departure leg) time_format)
                   "crimson" true) map in
       let route_line_points :=
         (route_line_points
            ++ [(latitude (destination leg),
                 longitude (destination leg))])%list in
       let map :=
         add_to (Circle 1000
                   (latitude (destination leg), longitude (destination leg))
                   (name (destination leg) ++ " - "
                      ++ strftime (arrival leg) time_format)
                   "crimson" true) map in
       ret (route_line_points, map)) ;;
  color <- subscript palette (transfer_count mod 5) ;;
  let map := add_to (PolyLine route_line_points color) map in
  ret (map, transfer_count + 1).

Definition draw (journey : addr) (only_transfer_stations : bool) : Py Map :=
  j <- load journey ;;
  first <- subscript (legs j) 0 ;;
  let origin_lat := latitude (origin first) in
  j <- load journey ;;
  first <- subscript (legs j) 0 ;;
  let origin_lon := longitude (origin first) in
  let map := {| map_location := (origin_lat, origin_lon);
                zoom_start := 8;
                children := [] |} in
  let map := add_to LocateControl map in
  let map := add_to MeasureControl map in
  let transfer_count := 0 in
  j <- load journey ;;
  '(map, _) <- for_each (legs j) (draw_leg only_transfer_stations)
                 (map, transfer_count) ;;
  ret map.

Definition draw_and_save_to_file (train_journey : addr)
    (only_transfer_stations : bool) (map_filename : string) : Py unit :=
  map <- draw train_journey only_transfer_stations ;;
  save map map_filename.

(** *** Presentation and selection of the journeys (lines 152-167) *)

(** The line printed for the journey at position [i] (lines 155-158). *)
Definition describe (i : Z) (journey : addr) : Py string :=
  j <- load journey ;;
  if len (legs j) =? 1 then
    j <- load journey ;;
    first <- subscript (legs j) 0 ;;
    j <- load journey ;;
    last <- subscript (legs j) (-1) ;;
    j <- load journey ;;
    ret ("- " ++ str_int i ++ ": Journey starts at "
           ++ strftime (departure first) time_format
           ++ " and ends at " ++ strftime (arrival last) time_format
           ++ ". The complete journey takes " ++ str_timedelta (duration j)
           ++ " and has no changes")
  else
    j <- load journey ;;
    first <- subscript (legs j) 0 ;;
    j <- load journey ;;
    last <- subscript (legs j) (-1) ;;
    j <- load journey ;;
    let took := str_timedelta (duration j) in
    j <- load journey ;;
    let changes := len (legs j) - 1 in
    j <- load journey ;;
    let at_stations :=
      List.map (fun leg => name (destination leg)) (slice_to (legs j) (-1)) in
    ret ("- " ++ str_int i ++ ": Journey starts at "
           ++ strftime (departure first) time_format
           ++ " and ends at " ++ strftime (arrival last) time_format
           ++ ". The complete journey takes " ++ took
           ++ " and has " ++ str_int changes
           ++ " changes (at " ++ String.concat ", " at_stations ++ ")").

(** Lines 153-158. *)
Definition print_routes (journeys : list addr)
    (start_station destination_station : Station) (start_time : datetime)
  : Py unit :=
  print ("Found " ++ str_int (len journeys)
           ++ " possible routes for your trip from " ++ name start_station
           ++ " to " ++ name destination_station
           ++ " at " ++ str_datetime start_time) ;;
  for_each (enumerate journeys)
    (fun '(i, journey) _ => line <- describe i journey ;; print line) tt.

(** Lines 159-163. *)
Definition select_route (journeys : list addr) : Py Z :=
  line <- input "Please select the journey you want to use: " ;;
  route_selection <- py_int line ;;
  (if (route_selection <? 0) || (route_selection >=? len journeys) then
     print "Invalid selection" ;;
     sys_exit 1
   else ret tt) ;;
  ret route_selection.

(** The script from line 143 on; lines 116-141 parse the command line
    and ask for what it leaves out, which gives the three arguments. *)
Definition main (start_station_str destination_station_str : string)
    (start_time : datetime) : Py unit :=
  start_station <- convert_station_str_to_station start_station_str ;;
  destination_station <-
    convert_station_str_to_station destination_station_str ;;
  journeys <- journeys_query start_station destination_station start_time ;;
  print_routes journeys start_station destination_station start_time ;;
  route_selection <- select_route journeys ;;
  selected <- subscript journeys route_selection ;;
  draw_and_save_to_file selected false "output.html" ;;
  print "Saved map".

End Script.

(** *** The top of the script (lines 116-141, 143-167) *)

(** What the top of the script calls besides: [datetime.strptime], which
    raises ValueError ([None]) on a text that does not fit the format,
    [datetime.now()] and [str.lower]. *)
Class PyStd {lib : PyLib} : Type := {
  strptime : string -> string -> option datetime;
  now : datetime;
  lower : string -> string
}.

Section CommandLine.
Context {lib : PyLib} {hafas_client : HafasClient} {std : PyStd}.
Local Open Scope py_scope.

(** The namespace [parser.parse_args()] returns (lines 116-120): an option
    that was not given is [None]. *)
Record Namespace : Type := mkNamespace {
  start_station_str : option string;
  destination_station_str : option string;
  start_time : option datetime
}.

(** [datetime.datetime.strptime(text, fmt)] *)
Definition py_strptime (text fmt : string) : Py datetime :=
  match strptime text fmt with
  | Some t => ret t
  | None => raise ValueError
  end.

(** Lines 124-141: what the command line left out is asked for, the time
    first. *)
Definition complete_arguments (args : Namespace)
  : Py (string * string * datetime) :=
  start_time <-
    match start_time args with
    | None =>
        print "No start time specified. Do you want to use the current time?" ;;
        use_current_time <- input "y/n: " ;;
        if String.eqb (lower use_current_time) "y" then ret now
        else
          text <- input
            "Please enter the start time in the format YYYY-MM-DDTHH:MM: " ;;
          try_except (py_strptime text "%Y-%m-%dT%H:%M")
            (fun e =>
               match e with
               | ValueError => Some (print "Invalid time format" ;; sys_exit 1)
               | _ => None
               end)
    | Some given => ret given
    end ;;
  start_station_str <-
    match start_station_str args with
    | None => input "Please enter the name of the start station: "
    | Some given => ret given
    end ;;
  destination_station_str <-
    match destination_station_str args with
    | None => input "Please enter the name of the destination station: "
    | Some given => ret given
    end ;;
  ret (start_station_str, destination_station_str, start_time).

(** The whole script, from the parsed command line on. *)
Definition script (args : Namespace) : Py unit :=
  '(start_station_str, destination_station_str, start_time) <-
    complete_arguments args ;;
  main start_station_str destination_station_str start_time.

End CommandLine.

(** ** Reading a rendered map *)

Section Observers.
Context {lib : PyLib}.

Definition is_circle (e : Element) : bool :=
  match e with Circle _ _ _ _ _ => true | _ => false end.

Definition is_polyline (e : Element) : bool :=
  match e with PolyLine _ _ => true | _ => false end.

Definition circles (map : Map) : list Element :=
  filter is_circle (children map).

Definition polylines (map : Map) : list Element :=
  filter is_polyline (children map).

Definition popup_of (e : Element) : option string :=
  match e with Circle _ _ p _ _ => Some p | _ => None end.

Definition color_of (e : Element) : option string :=
  match e with
  | Circle _ _ _ c _ => Some c
  | PolyLine _ c => Some c
  | _ => None
  end.

Definition points_of (e : Element) : list (float * float) :=
  match e with
  | PolyLine pts _ => pts
  | Circle _ p _ _ _ => [p]
  | _ => []
  end.

(** The look every marker of the script has (lines 72, 75, 76). *)
Definition crimson_marker (e : Element) : Prop :=
  match e with
  | Circle r _ _ c f => r = 1000 /\ c = "crimson" /\ f = true
  | _ => True
  end.

Definition coordinates (s : Station) : float * float :=
  (latitude s, longitude s).

(** [map] with [es] added after its children. *)
Definition extend (map : Map) (es : list Element) : Map :=
  {| map_location := map_location map;
     zoom_start := zoom_start map;
     children := children map ++ es |}.

(** *** What a pass over one leg leaves on the map

    Lines 62-98 read as a description: the markers of the leg, in the
    order of travel, then the leg's polyline in the colour of its
    position. [draw_legs_at] below shows that the loop computes it. *)

Definition stopover_marker (s : Stopover) : Element :=
  Circle 1000 (coordinates (stop s)) (stopover_popup s) "crimson" true.

Definition origin_marker (leg : Leg) : Element :=
  Circle 1000 (coordinates (origin leg))
    (name (origin leg) ++ " - " ++ strftime (departure leg) time_format)
    "crimson" true.

Definition destination_marker (leg : Leg) : Element :=
  Circle 1000 (coordinates (destination leg))
    (name (destination leg) ++ " - " ++ strftime (arrival leg) time_format)
    "crimson" true.

Definition leg_points (only_transfer_stations : bool) (leg : Leg)
  : list (float * float) :=
  if only_transfer_stations
  then [coordinates (origin leg); coordinates (destination leg)]
  else List.map (fun s => coordinates (stop s)) (stopovers leg).

Definition leg_markers (only_transfer_stations : bool) (leg : Leg)
  : list Element :=
  if only_transfer_stations
  then [origin_marker leg; destination_marker leg]
  else List.map stopover_marker (stopovers leg).

(** The colour of the leg at position [i]: the palette, cyclically. *)
Definition colorFor (i : Z) : string :=
  nth (Z.to_nat (i mod 5)) palette "".

Fixpoint rendered (only_transfer_stations : bool) (transfer_count : Z)
    (legs : list Leg) : list Element :=
  match legs with
  | [] => []
  | leg :: rest =>
      (leg_markers only_transfer_stations leg
         ++ PolyLine (leg_points only_transfer_stations leg)
              (colorFor transfer_count)
         :: rendered only_transfer_stations (transfer_count + 1) rest)%list
  end.

(** *** What the script writes before it asks *)

(** The numbered candidates of lines 31-32. *)
Definition listing (locations : list Station) : list event :=
  List.map (fun '(i, location) =>
              Printed (str_int (i + 1) ++ ": " ++ name location))
    (enumerate (slice_to locations 5)).

(** The line of lines 155-158 for the journey [j] at position [i]: up to
    the duration, then [ending]. *)
Definition summary_with (i : Z) (j : Journey) (first last : Leg)
    (ending : string) : string :=
  "- " ++ str_int i ++ ": Journey starts at "
    ++ strftime (departure first) time_format
    ++ " and ends at " ++ strftime (arrival last) time_format
    ++ ". The complete journey takes " ++ str_timedelta (duration j)
    ++ ending.

(** The summary of a journey of legs [L0 .. Ln]: with [n = 0] it has no
    changes, else [n] changes, at the destinations of [L0 .. L(n-1)]. *)
Definition summary (i : Z) (j : Journey) : option string :=
  let n := (List.length (legs j) - 1)%nat in
  match legs j, nth_error (legs j) n with
  | first :: _, Some last =>
      Some (summary_with i j first last
              (match n with
               | O => " and has no changes"
               | S _ =>
                   " and has " ++ str_int (Z.of_nat n) ++ " changes (at "
                     ++ String.concat ", "
                          (List.map (fun leg => name (destination leg))
                             (firstn n (legs j)))
                     ++ ")"
               end))
  | _, _ => None
  end.

(** The world after [input(prompt)] took a line and left [rest]. *)
Definition answered (w : World) (prompt : string) (rest : list string)
  : World :=
  {| stdin := rest;
     console := console w ++ [Prompted prompt];
     heap := heap w;
     files := files w |}.

(** A computation that writes nothing: it returns, raises or exits in
    the world it started in. *)
Definition read_only {A} (m : Py A) : Prop :=
  forall w, snd (m w) = w.

(** Writing to the console, with the rest of the world kept. *)
Definition written (w : World) (es : list event) : World :=
  {| stdin := stdin w;
     console := console w ++ es;
     heap := heap w;
     files := files w |}.

(** [j] with the stopovers of every leg forgotten. *)
Definition without_stopovers (j : Journey) : Journey :=
  {| legs := List.map (fun leg =>
                         {| origin := origin leg;
                            destination := destination leg;
                            departure := departure leg;
                            arrival := arrival leg;
                            stopovers := [] |}) (legs j);
     duration := duration j |}.

(** [w] with the journey at [journey] replaced by [j]. *)
Fixpoint store (l : list Journey) (journey : addr) (j : Journey)
  : list Journey :=
  match l, journey with
  | [], _ => []
  | _ :: rest, O => j :: rest
  | x :: rest, S k => x :: store rest k j
  end.

(** A computation that saves nothing. *)
Definition keeps_files {A} (m : Py A) : Prop :=
  forall w, files (snd (m w)) = files w.

(** How often the user was asked: the prompts among the events [es]. *)
Definition is_prompt (e : event) : bool :=
  match e with Prompted _ => true | Printed _ => false end.

Definition asked (es : list event) : nat :=
  List.length (filter is_prompt es).



End Observers.

(** ** A concrete runtime, to run the script on examples *)

Module Sample.

Record clock : Type := mkClock {
  year : Z; month : Z; day : Z; hour : Z; minute : Z
}.

Definition two_digits (n : Z) : string :=
  if n <? 10 then "0" ++ str_int n else str_int n.

Definition directive (c : ascii) (d : clock) : string :=
  if Ascii.eqb c "H" then two_digits (hour d)
  else if Ascii.eqb c "M" then two_digits (minute d)
  else if Ascii.eqb c "d" then two_digits (day d)
  else if Ascii.eqb c "m" then two_digits (month d)
  else if Ascii.eqb c "Y" then str_int (year d)
  else String "%" (String c "").

Fixpoint format (d : clock) (fmt : string) : string :=
  match fmt with
  | String "%" (String c rest) => directive c d ++ format d rest
  | String c rest => String c (format d rest)
  | EmptyString => ""
  end.

(** A duration in seconds, printed as [H:MM:SS]. *)
Definition show_seconds (s : Z) : string :=
  str_int (s / 3600) ++ ":" ++ two_digits ((s mod 3600) / 60)
    ++ ":" ++ two_digits (s mod 60).

(** Plain decimal literals, with an optional minus sign. *)
Definition read_int (s : string) : option Z :=
  option_map Z.of_int (NilZero.int_of_string s).

(** Coordinates are kept in thousandths of a degree. *)
Definition lib : PyLib := {|
  float := Z;
  datetime := clock;
  timedelta := Z;
  strftime := format;
  str_datetime := fun d => format d "%Y-%m-%d %H:%M:00";
  str_timedelta := show_seconds;
  int := read_int
|}.

Definition berlin : @Station lib := mkStation (lib := lib) "8011160" "Berlin Hbf" 52525 13369.
Definition berlin_tief : @Station lib := mkStation (lib := lib) "8098160" "Berlin Hbf (tief)" 52525 13369.
Definition berlin_sbahn : @Station lib := mkStation (lib := lib) "8089021" "Berlin Hbf (S-Bahn)" 52525 13368.
Definition hamburg : @Station lib := mkStation (lib := lib) "8002549" "Hamburg Hbf" 53552 10006.

Definition client : @HafasClient lib := {|
  hafas_locations := fun s =>
    if String.eqb s "Berlin Hbf" then [berlin; berlin_tief; berlin_sbahn]
    else if String.eqb s "Hamburg Hbf" then [hamburg] else [];
  hafas_journeys := fun _ _ _ => [];
  str_station := fun s => name s
|}.

Definition world0 (lines : list string) : @World lib :=
  {| stdin := lines; console := []; heap := []; files := [] |}.


(** Berlin to Hamburg with a change in Wittenberge. The first leg has
    three stopovers: one with a departure, one with an arrival only, one
    with no time; the second leg has none. *)
Definition wittenberge : @Station lib :=
  mkStation (lib := lib) "8010382" "Wittenberge" 53001 11752.
Definition nauen : @Station lib :=
  mkStation (lib := lib) "8010240" "Nauen" 52612 12885.

Definition leg0 : @Leg lib :=
  mkLeg (lib := lib) berlin wittenberge
    (mkClock 2024 5 1 9 0) (mkClock 2024 5 1 9 45)
    [ mkStopover (lib := lib) berlin None (Some (mkClock 2024 5 1 9 0));
      mkStopover (lib := lib) nauen (Some (mkClock 2024 5 1 9 20)) None;
      mkStopover (lib := lib) wittenberge None None ].

Definition leg1 : @Leg lib :=
  mkLeg (lib := lib) wittenberge hamburg
    (mkClock 2024 5 1 9 50) (mkClock 2024 5 1 10 30) [].

Definition trip : @Journey lib := mkJourney (lib := lib) [leg0; leg1] 5400.

Definition direct : @Journey lib := mkJourney (lib := lib) [leg0] 2700.

Definition seven : @Journey lib :=
  mkJourney (lib := lib) [leg1; leg1; leg1; leg1; leg1; leg1; leg1] 16800.

Definition world1 (lines : list string) : @World lib :=
  {| stdin := lines; console := []; heap := [trip; direct; seven];
     files := [] |}.

(** [trip] drawn with every stopover. *)
Definition trip_map : @Map lib :=
  mkMap (lib := lib) (52525, 13369) 8
       [ LocateControl; MeasureControl;
         Circle (lib := lib) 1000 (52525, 13369)
           "Berlin Hbf - 09:00 01.05.2024" "crimson" true;
         Circle (lib := lib) 1000 (52612, 12885)
           "Nauen - 09:20 01.05.2024" "crimson" true;
         Circle (lib := lib) 1000 (53001, 11752)
           "Wittenberge - unknown" "crimson" true;
         PolyLine (lib := lib)
           [(52525, 13369); (52612, 12885); (53001, 11752)] "Red";
         PolyLine (lib := lib) [] "Blue" ].

(** Time texts of the form [YYYY-MM-DDTHH:MM], digits only. *)
Definition digit (c : ascii) : option Z :=
  let n := Z.of_nat (nat_of_ascii c) in
  if (48 <=? n) && (n <=? 57) then Some (n - 48) else None.

Definition number (cs : list ascii) : option Z :=
  fold_left (fun acc c =>
               match acc, digit c with
               | Some a, Some d => Some (10 * a + d)
               | _, _ => None
               end) cs (Some 0).

Definition read_clock (text fmt : string) : option clock :=
  match list_ascii_of_string text with
  | [y1; y2; y3; y4; "-"; m1; m2; "-"; d1; d2; "T"; h1; h2; ":"; n1; n2]%char =>
      match number [y1; y2; y3; y4], number [m1; m2], number [d1; d2],
            number [h1; h2], number [n1; n2] with
      | Some y, Some m, Some d, Some h, Some n => Some (mkClock y m d h n)
      | _, _, _, _, _ => None
      end
  | _ => None
  end.

Definition lower_ascii (c : ascii) : ascii :=
  let n := nat_of_ascii c in
  if (65 <=? n)%nat && (n <=? 90)%nat then ascii_of_nat (n + 32) else c.

Fixpoint lower_string (s : string) : string :=
  match s with
  | EmptyString => EmptyString
  | String c rest => String (lower_ascii c) (lower_string rest)
  end.

Definition std : @PyStd lib :=
  Build_PyStd lib read_clock (mkClock 2024 5 1 8 30) lower_string.


(** A journey the client should not return: one without legs. *)
Definition nowhere : @Journey lib := mkJourney (lib := lib) [] 0.

Definition world2 (lines : list string) : @World lib :=
  {| stdin := lines; console := []; heap := [trip; nowhere]; files := [] |}.

(** A client with six candidates for one name, and no journey. *)
Definition wide_client : @HafasClient lib := {|
  hafas_locations := fun s =>
    if String.eqb s "Berlin"
    then [berlin; berlin_tief; berlin_sbahn; nauen; wittenberge; hamburg]
    else [];
  hafas_journeys := fun _ _ _ => [];
  str_station := fun s => name s
|}.

End Sample.

(** * Properties *)

Section Properties.
Context {lib : PyLib} {hafas_client : HafasClient}.
Local Open Scope py_scope.

(** ** Running the monad *)

Lemma bind_return {A B} (m : Py A) (k : A -> Py B) w a w' :
  m w = (Return a, w') -> bind m k w = k a w'.
Proof. unfold bind; intros ->; reflexivity. Qed.

Lemma bind_raise {A B} (m : Py A) (k : A -> Py B) w e w' :
  m w = (Raise e, w') -> bind m k w = (Raise e, w').
Proof. unfold bind; intros ->; reflexivity. Qed.

Lemma bind_exit {A B} (m : Py A) (k : A -> Py B) w c w' :
  m w = (SysExit c, w') -> bind m k w = (SysExit c, w').
Proof. unfold bind; intros ->; reflexivity. Qed.

Lemma load_at journey j w :
  nth_error (heap w) journey = Some j -> load journey w = (Return j, w).
Proof. unfold load; intros ->; reflexivity. Qed.

Lemma subscript_at {A} (l : list A) i a w :
  index l i = Some a -> subscript l i w = (Return a, w).
Proof. unfold subscript; intros ->; reflexivity. Qed.

Lemma subscript_outside {A} (l : list A) i w :
  index l i = None -> subscript l i w = (Raise IndexError, w).
Proof. unfold subscript; intros ->; reflexivity. Qed.

Lemma written_nil w : written w [] = w.
Proof. destruct w; unfold written; simpl; rewrite app_nil_r; reflexivity. Qed.

Lemma written_app w es es' :
  written (written w es) es' = written w (es ++ es').
Proof. unfold written; simpl; rewrite app_assoc; reflexivity. Qed.

Lemma print_written line w : print line w = (Return tt, written w [Printed line]).
Proof. reflexivity. Qed.

(** ** Subscripts and slices *)

Lemma len_nonneg {A} (l : list A) : 0 <= len l.
Proof. unfold len; lia. Qed.

Lemma len_cons {A} (x : A) l : len (x :: l) = len l + 1.
Proof. unfold len; simpl List.length; lia. Qed.

Lemma index_inside {A} (l : list A) i :
  0 <= i < len l -> index l i = nth_error l (Z.to_nat i).
Proof.
  intros [H0 H1]; unfold index.
  apply Z.leb_le in H0; apply Z.ltb_lt in H1.
  rewrite H0, H1; reflexivity.
Qed.

Lemma index_from_end {A} (l : list A) i :
  - len l <= i < 0 -> index l i = nth_error l (Z.to_nat (len l + i)).
Proof.
  intros [H0 H1]; unfold index.
  assert (E : (0 <=? i) = false) by (apply Z.leb_gt; lia).
  apply Z.leb_le in H0; apply Z.ltb_lt in H1.
  rewrite E, H0, H1; reflexivity.
Qed.

Lemma index_beyond {A} (l : list A) i :
  len l <= i \/ i < - len l -> index l i = None.
Proof.
  intros H; unfold index; pose proof (len_nonneg l).
  assert (E1 : (0 <=? i) && (i <? len l) = false).
  { apply andb_false_iff; destruct H; [right; apply Z.ltb_ge | left; apply Z.leb_gt]; lia. }
  assert (E2 : (- len l <=? i) && (i <? 0) = false).
  { apply andb_false_iff; destruct H; [right; apply Z.ltb_ge | left; apply Z.leb_gt]; lia. }
  rewrite E1, E2; reflexivity.
Qed.

Lemma index_first {A} (x : A) l : index (x :: l) 0 = Some x.
Proof.
  rewrite index_inside; [reflexivity | rewrite len_cons; pose proof (len_nonneg l); lia].
Qed.

Lemma index_some_inside {A} (l : list A) i :
  0 <= i < len l -> exists a, index l i = Some a.
Proof.
  intros H; rewrite (index_inside l H).
  destruct (nth_error l (Z.to_nat i)) as [a|] eqn:E; [eauto|].
  apply nth_error_None in E; unfold len in H; lia.
Qed.

Lemma firstn_all_but_last {A} (l : list A) :
  firstn (List.length l - 1) l = removelast l.
Proof.
  induction l as [|x l IH]; [reflexivity|].
  destruct l as [|y l']; [reflexivity|].
  change (removelast (x :: y :: l')) with (x :: removelast (y :: l')).
  rewrite <- IH; simpl List.length.
  replace (S (S (List.length l')) - 1)%nat
    with (S (S (List.length l') - 1))%nat by lia.
  reflexivity.
Qed.

Lemma slice_to_last {A} (l : list A) :
  slice_to l (-1) = removelast l.
Proof.
  unfold slice_to; simpl (-1 <? 0); cbv iota.
  replace (Z.to_nat (Z.max 0 (len l + -1))) with (List.length l - 1)%nat
    by (unfold len; lia).
  apply firstn_all_but_last.
Qed.

Lemma slice_to_short {A} (l : list A) n :
  0 <= n -> slice_to l n = firstn (Z.to_nat n) l.
Proof.
  intros H; unfold slice_to.
  assert (E : (n <? 0) = false) by (apply Z.ltb_ge; lia).
  rewrite E; reflexivity.
Qed.

Lemma index_minus_one {A} (l : list A) (x : A) :
  index (l ++ [x]) (-1) = Some x.
Proof.
  rewrite index_from_end.
  - unfold len; rewrite length_app; simpl List.length.
    replace (Z.to_nat (Z.of_nat (List.length l + 1) + -1)) with (List.length l) by lia.
    rewrite nth_error_app2 by lia; rewrite Nat.sub_diag; reflexivity.
  - unfold len; rewrite length_app; simpl List.length; lia.
Qed.

(** ** [draw] writes nothing *)

Lemma read_only_ret {A} (a : A) : read_only (ret a).
Proof. intros w; reflexivity. Qed.

Lemma read_only_raise {A} e : read_only (@raise _ A e).
Proof. intros w; reflexivity. Qed.

Lemma read_only_bind {A B} (m : Py A) (k : A -> Py B) :
  read_only m -> (forall a, read_only (k a)) -> read_only (bind m k).
Proof.
  intros Hm Hk w; unfold bind; specialize (Hm w).
  destruct (m w) as [[a|e|c] w']; simpl in Hm; subst w'; [apply Hk | reflexivity ..].
Qed.

Lemma read_only_load journey : read_only (load journey).
Proof. intros w; unfold load; destruct (nth_error (heap w) journey); reflexivity. Qed.

Lemma read_only_subscript {A} (l : list A) i : read_only (subscript l i).
Proof. unfold subscript; destruct (index l i); [apply read_only_ret | apply read_only_raise]. Qed.

Lemma read_only_for_each {A S} (l : list A) (body : A -> S -> Py S) :
  (forall x s, read_only (body x s)) -> forall s, read_only (for_each l body s).
Proof.
  intros Hbody; induction l as [|x l IH]; intros s; simpl.
  - apply read_only_ret.
  - apply read_only_bind; [apply Hbody | exact IH].
Qed.

Lemma read_only_draw_stopover stopover st : read_only (draw_stopover stopover st).
Proof. destruct st as [pts map]; apply read_only_ret. Qed.

Lemma read_only_draw_leg only leg st : read_only (draw_leg only leg st).
Proof.
  destruct st as [map tc]; unfold draw_leg.
  apply read_only_bind.
  - destruct (Bool.eqb only false).
    + apply read_only_for_each; intros; apply read_only_draw_stopover.
    + apply read_only_ret.
  - intros [pts map']; apply read_only_bind; [apply read_only_subscript|].
    intros; apply read_only_ret.
Qed.

Lemma read_only_draw journey only : read_only (draw journey only).
Proof.
  unfold draw.
  apply read_only_bind; [apply read_only_load | intros j1].
  apply read_only_bind; [apply read_only_subscript | intros first1].
  apply read_only_bind; [apply read_only_load | intros j2].
  apply read_only_bind; [apply read_only_subscript | intros first2].
  apply read_only_bind; [apply read_only_load | intros j3].
  apply read_only_bind.
  - apply read_only_for_each; intros; apply read_only_draw_leg.
  - intros [map tc]; apply read_only_ret.
Qed.


(** ** What [draw] computes *)

Lemma extend_nil (map : Map) : extend map [] = map.
Proof. destruct map; unfold extend; simpl; rewrite app_nil_r; reflexivity. Qed.

Lemma extend_add_to e (map : Map) es :
  extend (add_to e map) es = extend map (e :: es).
Proof. unfold extend, add_to; simpl; rewrite <- app_assoc; reflexivity. Qed.

Lemma extend_extend (map : Map) es es' :
  extend (extend map es) es' = extend map (es ++ es').
Proof. unfold extend; simpl; rewrite <- app_assoc; reflexivity. Qed.

Lemma draw_stopovers_at (l : list Stopover) : forall pts map w,
  for_each l draw_stopover (pts, map) w =
    (Return ((pts ++ List.map (fun s => coordinates (stop s)) l)%list,
             extend map (List.map stopover_marker l)), w).
Proof.
  induction l as [|s l IH]; intros pts map w; simpl.
  - rewrite app_nil_r, extend_nil; reflexivity.
  - unfold bind, draw_stopover at 1, ret at 1.
    rewrite IH, extend_add_to, <- app_assoc; reflexivity.
Qed.

Lemma palette_at tc :
  0 <= tc -> index palette (tc mod 5) = Some (colorFor tc).
Proof.
  intros _; unfold colorFor.
  pose proof (Z.mod_pos_bound tc 5 ltac:(lia)) as Hr.
  remember (tc mod 5) as r eqn:Er; clear Er.
  assert (C : r = 0 \/ r = 1 \/ r = 2 \/ r = 3 \/ r = 4) by lia.
  destruct C as [->|[->|[->|[->| ->]]]]; reflexivity.
Qed.

Lemma draw_leg_at only leg map tc w :
  0 <= tc ->
  draw_leg only leg (map, tc) w =
    (Return (extend map (leg_markers only leg
                           ++ [PolyLine (leg_points only leg) (colorFor tc)]),
             tc + 1), w).
Proof.
  intros Htc; unfold draw_leg.
  destruct only; simpl Bool.eqb; cbv iota.
  - unfold bind at 1, ret at 1.
    rewrite (bind_return _ _ _ (subscript_at palette _ _ (palette_at Htc))).
    unfold ret, add_to, extend; simpl.
    rewrite <- !app_assoc; reflexivity.
  - unfold bind at 1; rewrite draw_stopovers_at.
    rewrite (bind_return _ _ _ (subscript_at palette _ _ (palette_at Htc))).
    unfold ret; unfold leg_markers, leg_points.
    rewrite <- (extend_extend map), <- extend_add_to, extend_nil; reflexivity.
Qed.

Lemma draw_legs_at only (l : list Leg) : forall map tc w,
  0 <= tc ->
  for_each l (draw_leg only) (map, tc) w =
    (Return (extend map (rendered only tc l), tc + len l), w).
Proof.
  induction l as [|leg l IH]; intros map tc w Htc; simpl.
  - rewrite extend_nil; unfold ret, len; simpl; rewrite Z.add_0_r; reflexivity.
  - rewrite (bind_return _ _ _ (draw_leg_at only leg map w Htc)).
    rewrite IH by lia.
    rewrite extend_extend, <- app_assoc, len_cons; simpl.
    replace (tc + (len l + 1)) with (tc + 1 + len l) by lia.
    reflexivity.
Qed.

Lemma draw_at journey j first rest only w :
  nth_error (heap w) journey = Some j ->
  legs j = first :: rest ->
  draw journey only w =
    (Return {| map_location := coordinates (origin first);
               zoom_start := 8;
               children := LocateControl :: MeasureControl
                             :: rendered only 0 (legs j) |}, w).
Proof.
  intros Hj Hlegs; unfold draw.
  assert (H0 : index (legs j) 0 = Some first)
    by (rewrite Hlegs; apply index_first).
  rewrite (bind_return _ _ _ (load_at _ _ Hj)).
  rewrite (bind_return _ _ _ (subscript_at _ _ _ H0)).
  rewrite (bind_return _ _ _ (load_at _ _ Hj)).
  rewrite (bind_return _ _ _ (subscript_at _ _ _ H0)).
  rewrite (bind_return _ _ _ (load_at _ _ Hj)).
  rewrite (bind_return _ _ _ (draw_legs_at only (legs j) _ w (Z.le_refl 0))).
  reflexivity.
Qed.

Lemma draw_without_legs journey j only w :
  nth_error (heap w) journey = Some j ->
  legs j = [] ->
  draw journey only w = (Raise IndexError, w).
Proof.
  intros Hj Hlegs; unfold draw.
  rewrite (bind_return _ _ _ (load_at _ _ Hj)).
  rewrite Hlegs; reflexivity.
Qed.


Lemma draw_dangling journey only w :
  nth_error (heap w) journey = None ->
  draw journey only w = (Raise DanglingReference, w).
Proof. intros Hj; unfold draw, bind, load; rewrite Hj; reflexivity. Qed.

(** A call of [draw] that returns was given a journey with a first leg. *)
Lemma draw_returned journey only w map w' :
  draw journey only w = (Return map, w') ->
  exists j first rest,
    nth_error (heap w) journey = Some j /\ legs j = first :: rest /\
    w' = w /\
    map = {| map_location := coordinates (origin first);
             zoom_start := 8;
             children := LocateControl :: MeasureControl
                           :: rendered only 0 (legs j) |}.
Proof.
  intros H.
  destruct (nth_error (heap w) journey) as [j|] eqn:Hj.
  - destruct (legs j) as [|first rest] eqn:Hlegs.
    + rewrite (draw_without_legs _ only _ Hj Hlegs) in H; discriminate.
    + rewrite (draw_at _ only _ Hj Hlegs) in H.
      injection H as <- <-.
      exists j, first, rest; repeat split; assumption.
  - rewrite (draw_dangling _ only _ Hj) in H; discriminate.
Qed.

(** ** Markers and polylines of the rendered legs *)

Lemma leg_markers_circles only leg :
  filter is_circle (leg_markers only leg) = leg_markers only leg.
Proof.
  unfold leg_markers; destruct only; [reflexivity|].
  induction (stopovers leg) as [|s l IH]; simpl; [|rewrite IH]; reflexivity.
Qed.

Lemma leg_markers_no_polyline only leg :
  filter is_polyline (leg_markers only leg) = [].
Proof.
  unfold leg_markers; destruct only; [reflexivity|].
  induction (stopovers leg) as [|s l IH]; simpl; [|rewrite IH]; reflexivity.
Qed.

Lemma circles_rendered only (l : list Leg) : forall tc,
  filter is_circle (rendered only tc l) = flat_map (leg_markers only) l.
Proof.
  induction l as [|leg l IH]; intros tc; simpl; [reflexivity|].
  rewrite filter_app, leg_markers_circles; simpl; rewrite IH; reflexivity.
Qed.

Lemma polylines_rendered only (l : list Leg) : forall tc,
  filter is_polyline (rendered only tc l) =
    List.map (fun '(i, leg) => PolyLine (leg_points only leg) (colorFor i))
      (enumerate_from tc l).
Proof.
  induction l as [|leg l IH]; intros tc; simpl; [reflexivity|].
  rewrite filter_app, leg_markers_no_polyline; simpl; rewrite IH; reflexivity.
Qed.

Lemma enumerate_from_length {A} (l : list A) : forall start,
  List.length (enumerate_from start l) = List.length l.
Proof. induction l as [|x l IH]; intros start; simpl; [|rewrite IH]; reflexivity. Qed.

Lemma enumerate_from_nth {A} (l : list A) : forall start i,
  nth_error (enumerate_from start l) i =
    option_map (fun x => (start + Z.of_nat i, x)) (nth_error l i).
Proof.
  induction l as [|x l IH]; intros start i; destruct i as [|i]; simpl;
    try reflexivity.
  - rewrite Z.add_0_r; reflexivity.
  - rewrite IH; destruct (nth_error l i); simpl; [|reflexivity].
    do 2 f_equal; lia.
Qed.

Lemma enumerate_from_colours only (l : list Leg) : forall tc,
  List.map color_of
    (List.map (fun '(i, leg) => PolyLine (leg_points only leg) (colorFor i))
       (enumerate_from tc l)) =
  List.map (fun i => Some (colorFor (tc + Z.of_nat i)))
    (seq 0 (List.length l)).
Proof.
  induction l as [|leg l IH]; intros tc; simpl; [reflexivity|].
  rewrite Z.add_0_r; f_equal.
  rewrite IH, <- seq_shift, map_map.
  apply map_ext; intros i; do 2 f_equal; lia.
Qed.

Lemma enumerate_from_points only (l : list Leg) : forall tc,
  List.map points_of
    (List.map (fun '(i, leg) => PolyLine (leg_points only leg) (colorFor i))
       (enumerate_from tc l)) =
  List.map (leg_points only) l.
Proof.
  induction l as [|leg l IH]; intros tc; simpl; [|rewrite IH]; reflexivity.
Qed.

Lemma stopover_popups (l : list Leg) :
  List.map popup_of (flat_map (leg_markers false) l) =
  List.map (fun s => Some (stopover_popup s)) (flat_map stopovers l).
Proof.
  induction l as [|leg l IH]; simpl; [reflexivity|].
  rewrite !map_app, IH; f_equal.
  unfold leg_markers; rewrite map_map; reflexivity.
Qed.

Lemma leg_markers_crimson only leg :
  Forall crimson_marker (leg_markers only leg).
Proof.
  unfold leg_markers; destruct only.
  - repeat constructor.
  - apply Forall_forall; intros e He.
    apply in_map_iff in He; destruct He as [s [<- _]]; simpl; auto.
Qed.

Lemma rendered_crimson only (l : list Leg) : forall tc,
  Forall crimson_marker (rendered only tc l).
Proof.
  induction l as [|leg l IH]; intros tc; simpl; [constructor|].
  apply Forall_app; split; [apply leg_markers_crimson|].
  constructor; [exact I | apply IH].
Qed.

Lemma colorFor_in_palette i : 0 <= i -> In (colorFor i) palette.
Proof.
  intros Hi; pose proof (palette_at Hi) as H.
  rewrite index_inside in H.
  - eapply nth_error_In; exact H.
  - pose proof (Z.mod_pos_bound i 5 ltac:(lia)); unfold len; simpl; lia.
Qed.

Lemma colorFor_period i : colorFor (i + 5) = colorFor i.
Proof.
  unfold colorFor.
  replace (i + 5) with (i + 1 * 5) by lia.
  rewrite Z.mod_add by lia; reflexivity.
Qed.


(** ** The rendered map *)

Lemma first_leg (l : list Leg) :
  l <> [] -> exists first rest, l = first :: rest.
Proof. destruct l as [|first rest]; [contradiction | eauto]. Qed.

(** C3. In detailed mode the map has one marker per stopover, in the
    order of travel, and the popup of each is the stop's name followed by
    a time chosen so: the departure when the stopover has one, else the
    arrival when it has one, else the text "unknown". *)
Theorem detailed_popup_timestamp journey j w :
  nth_error (heap w) journey = Some j ->
  legs j <> [] ->
  exists map,
    draw journey false w = (Return map, w) /\
    List.map popup_of (circles map) =
      List.map (fun s => Some (stopover_popup s)) (flat_map stopovers (legs j)) /\
    forall s : Stopover,
      (forall d, stopover_departure s = Some d ->
         stopover_popup s = name (stop s) ++ " - " ++ strftime d time_format) /\
      (forall a, stopover_departure s = None -> stopover_arrival s = Some a ->
         stopover_popup s = name (stop s) ++ " - " ++ strftime a time_format) /\
      (stopover_departure s = None -> stopover_arrival s = None ->
         stopover_popup s = name (stop s) ++ " - " ++ "unknown").
Proof.
  intros Hj Hlegs.
  destruct (first_leg Hlegs) as (first & rest & E).
  eexists; split; [apply (draw_at _ false _ Hj E)|].
  split.
  - unfold circles; simpl. rewrite circles_rendered; apply stopover_popups.
  - intros s; unfold stopover_popup; repeat split.
    + intros d ->; reflexivity.
    + intros a -> ->; reflexivity.
    + intros -> ->; reflexivity.
Qed.

(** C4. The polyline of the leg at position [i] has the colour
    [palette[i mod 5]]: seven legs get Red, Blue, Green, Black, White,
    Red, Blue, and the colour of position [i + 5] is that of [i]. *)
Theorem polyline_colours_cycle journey j only w :
  nth_error (heap w) journey = Some j ->
  legs j <> [] ->
  exists map,
    draw journey only w = (Return map, w) /\
    List.map color_of (polylines map) =
      List.map (fun i => index palette (Z.of_nat i mod 5))
        (seq 0 (List.length (legs j))) /\
    (List.length (legs j) = 7%nat ->
       List.map color_of (polylines map) =
         List.map Some ["Red"; "Blue"; "Green"; "Black"; "White"; "Red"; "Blue"]) /\
    forall i, 0 <= i ->
      index palette (i mod 5) = Some (colorFor i) /\
      colorFor (i + 5) = colorFor i.
Proof.
  intros Hj Hlegs.
  destruct (first_leg Hlegs) as (first & rest & E).
  eexists; split; [apply (draw_at _ only _ Hj E)|].
  assert (Hcolours :
    List.map color_of
      (filter is_polyline (LocateControl :: MeasureControl :: rendered only 0 (legs j))) =
    List.map (fun i => index palette (Z.of_nat i mod 5)) (seq 0 (List.length (legs j)))).
  { simpl filter. rewrite polylines_rendered, enumerate_from_colours.
    apply map_ext; intros i; rewrite palette_at by lia; reflexivity. }
  unfold polylines; simpl children.
  split; [exact Hcolours|]. split.
  - intros H7; rewrite Hcolours, H7; reflexivity.
  - intros i Hi; split; [apply palette_at; exact Hi | apply colorFor_period].
Qed.

(** C5. A journey of one leg with [m] stopovers is drawn in detailed
    mode as one polyline through the [m] stops, with [m] markers, and in
    transfer-only mode as one polyline through two points, the origin
    and the destination of the leg, with two markers, whatever [m] is. *)
Theorem single_leg_rendering journey leg took w :
  nth_error (heap w) journey = Some {| legs := [leg]; duration := took |} ->
  (exists map,
     draw journey false w = (Return map, w) /\
     polylines map =
       [PolyLine (List.map (fun s => coordinates (stop s)) (stopovers leg)) "Red"] /\
     List.map (fun e => List.length (points_of e)) (polylines map) =
       [List.length (stopovers leg)] /\
     List.length (circles map) = List.length (stopovers leg)) /\
  (exists map,
     draw journey true w = (Return map, w) /\
     polylines map =
       [PolyLine [coordinates (origin leg); coordinates (destination leg)] "Red"] /\
     List.map (fun e => List.length (points_of e)) (polylines map) = [2%nat] /\
     List.length (circles map) = 2%nat).
Proof.
  intros Hj; split.
  - eexists; split; [apply (draw_at _ false _ Hj eq_refl)|].
    unfold polylines, circles; simpl children; simpl filter.
    pose proof (leg_markers_no_polyline false leg) as Hnone.
    pose proof (leg_markers_circles false leg) as Hall.
    unfold leg_markers in Hnone, Hall.
    rewrite !filter_app, Hnone, Hall.
    simpl; rewrite app_nil_r, !length_map; auto.
  - eexists; split; [apply (draw_at _ true _ Hj eq_refl)|].
    unfold polylines, circles; simpl; auto.
Qed.

(** C6. In both modes [draw] returns a map with one polyline per leg, in
    the order of the legs, through the points of that leg; a leg without
    stopovers, or with one, gets its polyline of no point, or of one,
    like any other leg. *)
Theorem one_polyline_per_leg journey j only w :
  nth_error (heap w) journey = Some j ->
  legs j <> [] ->
  exists map,
    draw journey only w = (Return map, w) /\
    List.length (polylines map) = List.length (legs j) /\
    (forall i leg, nth_error (legs j) i = Some leg ->
       nth_error (polylines map) i =
         Some (PolyLine (leg_points only leg) (colorFor (Z.of_nat i)))) /\
    (only = false ->
     forall i leg, nth_error (legs j) i = Some leg ->
       (stopovers leg = [] ->
          nth_error (polylines map) i = Some (PolyLine [] (colorFor (Z.of_nat i)))) /\
       (forall s, stopovers leg = [s] ->
          nth_error (polylines map) i =
            Some (PolyLine [coordinates (stop s)] (colorFor (Z.of_nat i))))).
Proof.
  intros Hj Hlegs.
  destruct (first_leg Hlegs) as (first & rest & E).
  eexists; split; [apply (draw_at _ only _ Hj E)|].
  unfold polylines; simpl children; simpl filter.
  rewrite polylines_rendered.
  assert (Hnth : forall i leg, nth_error (legs j) i = Some leg ->
    nth_error
      (List.map (fun '(i, leg) => PolyLine (leg_points only leg) (colorFor i))
         (enumerate_from 0 (legs j))) i =
    Some (PolyLine (leg_points only leg) (colorFor (Z.of_nat i)))).
  { intros i leg Hi.
    rewrite nth_error_map, enumerate_from_nth, Hi; reflexivity. }
  split; [rewrite length_map; apply enumerate_from_length|].
  split; [exact Hnth|].
  intros -> i leg Hi; split.
  - intros Hnone; rewrite (Hnth i leg Hi); unfold leg_points; rewrite Hnone; reflexivity.
  - intros s Hone; rewrite (Hnth i leg Hi); unfold leg_points; rewrite Hone; reflexivity.
Qed.

(** C9. Whatever [draw] returns, in either mode, every circle on the
    map has radius 1000, colour "crimson" and is filled; the colours of
    the palette go to the polylines only, and "crimson" is none of them. *)
Theorem markers_are_crimson journey only w map w' :
  draw journey only w = (Return map, w') ->
  Forall crimson_marker (children map) /\
  (forall e, In e (circles map) ->
     exists p t, e = Circle 1000 p t "crimson" true) /\
  (forall e, In e (polylines map) ->
     exists c, color_of e = Some c /\ In c palette) /\
  ~ In "crimson" palette.
Proof.
  intros H; apply draw_returned in H.
  destruct H as (j & first & rest & Hj & Hlegs & -> & ->).
  assert (Hall : Forall crimson_marker
            (LocateControl :: MeasureControl :: rendered only 0 (legs j)))
    by (repeat constructor; apply rendered_crimson).
  split; [exact Hall|]. split; [|split].
  - intros e He; unfold circles in He; simpl children in He.
    apply filter_In in He; destruct He as [He Hc].
    rewrite Forall_forall in Hall; specialize (Hall e He).
    destruct e; try discriminate.
    simpl in Hall; destruct Hall as (-> & -> & ->); eauto.
  - intros e He; unfold polylines in He; simpl children in He; simpl filter in He.
    rewrite polylines_rendered in He.
    apply in_map_iff in He; destruct He as [[i leg] [<- Hin]].
    exists (colorFor i); split; [reflexivity|].
    apply colorFor_in_palette.
    destruct (In_nth_error _ _ Hin) as [k Hk].
    rewrite enumerate_from_nth in Hk.
    destruct (nth_error (legs j) k); [|discriminate].
    injection Hk as <- _; lia.
  - simpl; intros [H|[H|[H|[H|[H|[]]]]]]; discriminate.
Qed.

(** C10. [draw] only reads the journey it is given: in both modes, and
    whether it returns or raises, the journey objects are after the call
    what they were before it, the one drawn included. *)
Theorem draw_leaves_journey_unchanged journey only w :
  let w' := snd (draw journey only w) in
  heap w' = heap w /\
  nth_error (heap w') journey = nth_error (heap w) journey.
Proof.
  simpl; rewrite (read_only_draw journey only w); split; reflexivity.
Qed.


(** ** The summaries of the journeys *)

Lemma index_last_leg (l : list Leg) last :
  nth_error l (List.length l - 1) = Some last ->
  index l (-1) = Some last.
Proof.
  intros H.
  assert (Hlen : (List.length l - 1 < List.length l)%nat)
    by (apply nth_error_Some; rewrite H; discriminate).
  rewrite index_from_end by (unfold len; lia).
  replace (Z.to_nat (len l + -1)) with (List.length l - 1)%nat
    by (unfold len; lia).
  exact H.
Qed.

Lemma last_leg_exists (l : list Leg) :
  l <> [] -> exists last, nth_error l (List.length l - 1) = Some last.
Proof.
  intros H; destruct (nth_error l (List.length l - 1)) as [x|] eqn:E; [eauto|].
  apply nth_error_None in E; destruct l; [contradiction | simpl in E; lia].
Qed.

Lemma summary_defined i j :
  legs j <> [] -> exists line, summary i j = Some line.
Proof.
  intros H; unfold summary.
  destruct (last_leg_exists H) as [last ->].
  destruct (legs j); [contradiction | eauto].
Qed.

Lemma describe_at i journey j line w :
  nth_error (heap w) journey = Some j ->
  summary i j = Some line ->
  describe i journey w = (Return line, w).
Proof.
  intros Hj Hs; unfold summary in Hs.
  destruct (legs j) as [|first rest] eqn:Hlegs; [discriminate|].
  destruct (nth_error (first :: rest) (List.length (first :: rest) - 1))
    as [last|] eqn:Hlast; [|discriminate].
  injection Hs as Hline.
  assert (H0 : index (legs j) 0 = Some first)
    by (rewrite Hlegs; apply index_first).
  assert (H1 : index (legs j) (-1) = Some last)
    by (rewrite Hlegs; apply index_last_leg; exact Hlast).
  unfold describe.
  rewrite (bind_return _ _ _ (load_at _ _ Hj)).
  destruct rest as [|second rest].
  - rewrite Hlegs; simpl (len [first] =? 1); cbv iota.
    rewrite (bind_return _ _ _ (load_at _ _ Hj)).
    rewrite (bind_return _ _ _ (subscript_at _ _ _ H0)).
    rewrite (bind_return _ _ _ (load_at _ _ Hj)).
    rewrite (bind_return _ _ _ (subscript_at _ _ _ H1)).
    rewrite (bind_return _ _ _ (load_at _ _ Hj)).
    rewrite <- Hline; reflexivity.
  - assert (E : (len (legs j) =? 1) = false).
    { apply Z.eqb_neq; rewrite Hlegs, !len_cons.
      pose proof (len_nonneg rest); lia. }
    rewrite E.
    rewrite (bind_return _ _ _ (load_at _ _ Hj)).
    rewrite (bind_return _ _ _ (subscript_at _ _ _ H0)).
    rewrite (bind_return _ _ _ (load_at _ _ Hj)).
    rewrite (bind_return _ _ _ (subscript_at _ _ _ H1)).
    rewrite (bind_return _ _ _ (load_at _ _ Hj)).
    rewrite (bind_return _ _ _ (load_at _ _ Hj)).
    rewrite (bind_return _ _ _ (load_at _ _ Hj)).
    rewrite slice_to_last, <- firstn_all_but_last, Hlegs.
    change (List.length (first :: second :: rest) - 1)%nat
      with (S (List.length rest)) in *.
    replace (len (first :: second :: rest) - 1)
      with (Z.of_nat (S (List.length rest)))
      by (unfold len; simpl List.length; lia).
    rewrite <- Hline; reflexivity.
Qed.

Lemma print_routes_loop w (journeys : list addr) : forall start es,
  Forall (fun journey =>
            exists j, nth_error (heap w) journey = Some j /\ legs j <> [])
    journeys ->
  exists lines,
    for_each (enumerate_from start journeys)
      (fun '(i, journey) _ => line <- describe i journey ;; print line) tt
      (written w es) =
      (Return tt, written w (es ++ List.map Printed lines)) /\
    List.length lines = List.length journeys /\
    forall k journey j,
      nth_error journeys k = Some journey ->
      nth_error (heap w) journey = Some j ->
      nth_error lines k = summary (start + Z.of_nat k) j.
Proof.
  induction journeys as [|a l IH]; intros start es Hall.
  - exists []; simpl; rewrite app_nil_r; repeat split.
    intros [|k] ? ? H; discriminate.
  - inversion Hall as [|? ? (j & Hj & Hlegs) Hrest]; subst.
    destruct (summary_defined start j Hlegs) as [line Hline].
    destruct (IH (start + 1) (es ++ [Printed line])%list Hrest)
      as (lines & Hrun & Hlen & Hnth).
    exists (line :: lines); simpl for_each.
    assert (Hd : describe start a (written w es) = (Return line, written w es))
      by (apply describe_at with (j := j); [exact Hj | exact Hline]).
    assert (Hbody :
      (line <- describe start a ;; print line) (written w es) =
        (Return tt, written w (es ++ [Printed line])))
      by (rewrite (bind_return _ _ _ Hd), print_written, written_app;
          reflexivity).
    rewrite (bind_return _ _ _ Hbody), Hrun, <- app_assoc.
    repeat split; [simpl; rewrite Hlen; reflexivity|].
    intros [|k] journey j' Hk Hj'; simpl in Hk.
    + injection Hk as <-; rewrite Hj in Hj'; injection Hj' as <-.
      simpl; rewrite Z.add_0_r; symmetry; exact Hline.
    + simpl; rewrite (Hnth k journey j' Hk Hj').
      f_equal; lia.
Qed.


(** C8. The journeys are summarised one per line, in order. The line of
    the journey at position [k], of legs [L0 .. Ln], gives [k], the
    departure of [L0], the arrival of [Ln] and the duration; with
    [n = 0] it ends in "no changes", else it gives [n] as the number of
    changes and the names of the destinations of [L0 .. L(n-1)], in
    order. *)
Theorem routes_summaries journeys start_station destination_station
    start_time w :
  Forall (fun journey =>
            exists j, nth_error (heap w) journey = Some j /\ legs j <> [])
    journeys ->
  exists lines,
    print_routes journeys start_station destination_station start_time w =
      (Return tt,
       written w
         (Printed ("Found " ++ str_int (len journeys)
                     ++ " possible routes for your trip from "
                     ++ name start_station ++ " to "
                     ++ name destination_station ++ " at "
                     ++ str_datetime start_time)
            :: List.map Printed lines)) /\
    List.length lines = List.length journeys /\
    forall k journey j,
      nth_error journeys k = Some journey ->
      nth_error (heap w) journey = Some j ->
      exists first rest last,
        legs j = first :: rest /\
        nth_error (legs j) (List.length rest) = Some last /\
        let n := List.length rest in
        let line := fun ending =>
          "- " ++ str_int (Z.of_nat k) ++ ": Journey starts at "
            ++ strftime (departure first) time_format
            ++ " and ends at " ++ strftime (arrival last) time_format
            ++ ". The complete journey takes " ++ str_timedelta (duration j)
            ++ ending in
        (n = 0%nat ->
           nth_error lines k = Some (line " and has no changes")) /\
        (n <> 0%nat ->
           nth_error lines k =
             Some (line (" and has " ++ str_int (Z.of_nat n)
                           ++ " changes (at "
                           ++ String.concat ", "
                                (List.map (fun leg => name (destination leg))
                                   (firstn n (legs j)))
                           ++ ")"))).
Proof.
  intros Hall; unfold print_routes.
  rewrite (bind_return _ _ _ (print_written _ w)).
  destruct (print_routes_loop w 0 [Printed
              ("Found " ++ str_int (len journeys)
                 ++ " possible routes for your trip from "
                 ++ name start_station ++ " to "
                 ++ name destination_station ++ " at "
                 ++ str_datetime start_time)] Hall)
    as (lines & Hrun & Hlen & Hnth).
  exists lines; split; [exact Hrun|]. split; [exact Hlen|].
  intros k journey j Hk Hj.
  specialize (Hnth k journey j Hk Hj); rewrite Z.add_0_l in Hnth.
  rewrite Forall_forall in Hall.
  destruct (Hall journey (nth_error_In _ _ Hk)) as (j' & Hj' & Hlegs).
  rewrite Hj in Hj'; injection Hj' as <-.
  destruct (first_leg Hlegs) as (first & rest & E).
  assert (Hn : (List.length (legs j) - 1)%nat = List.length rest)
    by (rewrite E; simpl; lia).
  destruct (last_leg_exists Hlegs) as [last Hlast]; rewrite Hn in Hlast.
  exists first, rest, last. split; [exact E|]. split; [exact Hlast|].
  unfold summary in Hnth; rewrite Hn, Hlast, E in Hnth; rewrite E.
  unfold summary_with in Hnth; cbv zeta.
  destruct (List.length rest) as [|m]; split; intros Hm;
    try contradiction; try discriminate; exact Hnth.
Qed.

(** ** Choosing a journey *)

Lemma input_line prompt line rest w :
  stdin w = line :: rest ->
  input prompt w = (Return line, answered w prompt rest).
Proof. unfold input; intros ->; reflexivity. Qed.

Lemma py_int_parsed line n w :
  int line = Some n -> py_int line w = (Return n, w).
Proof. unfold py_int; intros ->; reflexivity. Qed.

Lemma py_int_malformed line w :
  int line = None -> py_int line w = (Raise ValueError, w).
Proof. unfold py_int; intros ->; reflexivity. Qed.

(** An integer inside [0, len(journeys)) is returned... *)
Lemma select_route_in_range journeys line rest n w :
  stdin w = line :: rest ->
  int line = Some n ->
  0 <= n < len journeys ->
  select_route journeys w =
    (Return n,
     answered w "Please select the journey you want to use: " rest).
Proof.
  intros Hin Hint [H0 H1]; unfold select_route.
  rewrite (bind_return _ _ _ (input_line _ _ Hin)).
  rewrite (bind_return _ _ _ (py_int_parsed _ _ Hint)).
  assert (E : (n <? 0) || (n >=? len journeys) = false).
  { rewrite Z.geb_leb; apply orb_false_iff.
    split; [apply Z.ltb_ge | apply Z.leb_gt]; lia. }
  rewrite E; reflexivity.
Qed.

(** ... and one outside it ends the run with a message and status 1. *)
Lemma select_route_out_of_range journeys line rest n w :
  stdin w = line :: rest ->
  int line = Some n ->
  n < 0 \/ len journeys <= n ->
  select_route journeys w =
    (SysExit 1,
     written (answered w "Please select the journey you want to use: " rest)
       [Printed "Invalid selection"]).
Proof.
  intros Hin Hint Hn; unfold select_route.
  rewrite (bind_return _ _ _ (input_line _ _ Hin)).
  rewrite (bind_return _ _ _ (py_int_parsed _ _ Hint)).
  assert (E : (n <? 0) || (n >=? len journeys) = true).
  { rewrite Z.geb_leb; apply orb_true_iff.
    destruct Hn; [left; apply Z.ltb_lt | right; apply Z.leb_le]; lia. }
  rewrite E; reflexivity.
Qed.

(** C2. A line that is no integer does not end the run the way a
    selection out of range does: nothing tells the user the selection was
    invalid, and [int] raises ValueError out of the script. *)
Theorem malformed_route_selection_uncaught journeys line rest w :
  stdin w = line :: rest ->
  int line = None ->
  select_route journeys w =
    (Raise ValueError,
     answered w "Please select the journey you want to use: " rest).
Proof.
  intros Hin Hint; unfold select_route.
  rewrite (bind_return _ _ _ (input_line _ _ Hin)).
  rewrite (bind_raise _ _ _ (py_int_malformed _ _ Hint)).
  reflexivity.
Qed.


(** ** Resolving a station name *)

(** C7. A name for which the client finds no station ends the run: the
    script says which name it was and exits with status 1. It asks
    nothing, reads nothing and returns no station. *)
Theorem convert_station_not_found station_str w :
  hafas_locations station_str = [] ->
  convert_station_str_to_station station_str w =
    (SysExit 1,
     written w [Printed ("Could not find any stations with the name "
                           ++ station_str)]) /\
  stdin (snd (convert_station_str_to_station station_str w)) = stdin w /\
  (forall e,
     In e (console (snd (convert_station_str_to_station station_str w))) ->
     In e (console w) \/
     e = Printed ("Could not find any stations with the name " ++ station_str)) /\
  forall station,
    fst (convert_station_str_to_station station_str w) <> Return station.
Proof.
  intros Hnone.
  assert (Hrun : convert_station_str_to_station station_str w =
    (SysExit 1,
     written w [Printed ("Could not find any stations with the name "
                           ++ station_str)]))
    by (unfold convert_station_str_to_station; rewrite Hnone; reflexivity).
  rewrite Hrun; simpl; repeat split.
  - intros e Hin; apply in_app_or in Hin.
    destruct Hin as [Hin|[Hin|[]]]; [left; exact Hin | right; symmetry; exact Hin].
  - discriminate.
Qed.

Lemma listing_printed (l : list Station) w : forall start es,
  for_each (enumerate_from start l)
    (fun '(i, location) (_ : unit) =>
       print (str_int (i + 1) ++ ": " ++ name location)) tt (written w es) =
    (Return tt,
     written w
       (es ++ List.map (fun '(i, location) =>
                          Printed (str_int (i + 1) ++ ": " ++ name location))
                (enumerate_from start l))).
Proof.
  induction l as [|x l IH]; intros start es; simpl.
  - rewrite app_nil_r; reflexivity.
  - rewrite (bind_return _ _ _ (print_written _ _)), written_app, IH.
    rewrite <- app_assoc; reflexivity.
Qed.

(** With several candidates the script lists them and asks. *)
Lemma convert_station_many station_str w :
  1 < len (hafas_locations station_str) ->
  convert_station_str_to_station station_str w =
    try_except
      (line <- input "Please select the station you want to use: " ;;
       n <- py_int line ;;
       station <- subscript (hafas_locations station_str) (n - 1) ;;
       ret station)
      (fun e =>
         match e with
         | ValueError => Some (print "Invalid input" ;; sys_exit 1)
         | IndexError => Some (print "Invalid index" ;; sys_exit 1)
         | _ => None
         end)
      (written w (Printed "Found the following stations:"
                    :: listing (hafas_locations station_str))).
Proof.
  intros Hmany; unfold convert_station_str_to_station.
  assert (E0 : (len (hafas_locations station_str) =? 0) = false)
    by (apply Z.eqb_neq; lia).
  assert (E1 : (len (hafas_locations station_str) =? 1) = false)
    by (apply Z.eqb_neq; lia).
  rewrite E0, E1.
  rewrite (bind_return _ _ _ (eq_refl : ret tt w = (Return tt, w))).
  rewrite (bind_return _ _ _ (print_written _ w)).
  unfold enumerate.
  rewrite (bind_return _ _ _ (listing_printed _ w 0 _)).
  reflexivity.
Qed.

(** The candidates shown: [min(k, 5)] of them, numbered from 1, in the
    order of the client. *)
Lemma listing_numbered (locations : list Station) :
  List.length (listing locations) = Nat.min 5 (List.length locations) /\
  forall i location,
    (i < 5)%nat -> nth_error locations i = Some location ->
    nth_error (listing locations) i =
      Some (Printed (str_int (Z.of_nat i + 1) ++ ": " ++ name location)).
Proof.
  unfold listing, enumerate; rewrite slice_to_short by lia.
  change (Z.to_nat 5) with 5%nat; split.
  - rewrite length_map, enumerate_from_length; apply length_firstn.
  - intros i location Hi Hnth.
    rewrite nth_error_map, enumerate_from_nth, nth_error_firstn.
    apply Nat.ltb_lt in Hi; rewrite Hi, Hnth; reflexivity.
Qed.

(** Whatever [locations[n - 1]] is, is returned. *)
Lemma convert_station_selected station_str line rest n station w :
  1 < len (hafas_locations station_str) ->
  stdin w = line :: rest ->
  int line = Some n ->
  index (hafas_locations station_str) (n - 1) = Some station ->
  convert_station_str_to_station station_str w =
    (Return station,
     answered (written w (Printed "Found the following stations:"
                            :: listing (hafas_locations station_str)))
       "Please select the station you want to use: " rest).
Proof.
  intros Hmany Hin Hint Hidx; rewrite (convert_station_many _ w Hmany).
  unfold try_except.
  rewrite (bind_return _ _ _ (input_line _ (written w _) Hin)).
  rewrite (bind_return _ _ _ (py_int_parsed _ _ Hint)).
  rewrite (bind_return _ _ _ (subscript_at _ _ _ Hidx)).
  reflexivity.
Qed.

(** A selection [n] with [1 <= n <= k] returns candidate [n - 1], also
    one of those beyond the five shown. *)
Lemma convert_station_valid_selection station_str line rest n w :
  1 < len (hafas_locations station_str) ->
  stdin w = line :: rest ->
  int line = Some n ->
  1 <= n <= len (hafas_locations station_str) ->
  exists station,
    nth_error (hafas_locations station_str) (Z.to_nat (n - 1)) = Some station /\
    fst (convert_station_str_to_station station_str w) = Return station.
Proof.
  intros Hmany Hin Hint Hn.
  destruct (index_some_inside (hafas_locations station_str) (i := n - 1))
    as [station Hidx]; [lia|].
  exists station; split.
  - rewrite <- Hidx, index_inside by lia; reflexivity.
  - rewrite (convert_station_selected _ _ Hmany Hin Hint Hidx); reflexivity.
Qed.

(** A selection beyond the last candidate, [k + 1] for one, ends the run
    with "Invalid index" and status 1; so does one below [1 - k]. *)
Lemma convert_station_invalid_index station_str line rest n w :
  1 < len (hafas_locations station_str) ->
  stdin w = line :: rest ->
  int line = Some n ->
  len (hafas_locations station_str) < n
    \/ n <= - len (hafas_locations station_str) ->
  convert_station_str_to_station station_str w =
    (SysExit 1,
     written
       (answered (written w (Printed "Found the following stations:"
                               :: listing (hafas_locations station_str)))
          "Please select the station you want to use: " rest)
       [Printed "Invalid index"]).
Proof.
  intros Hmany Hin Hint Hn; rewrite (convert_station_many _ w Hmany).
  assert (Hidx : index (hafas_locations station_str) (n - 1) = None)
    by (apply index_beyond; lia).
  unfold try_except.
  rewrite (bind_return _ _ _ (input_line _ (written w _) Hin)).
  rewrite (bind_return _ _ _ (py_int_parsed _ _ Hint)).
  rewrite (bind_raise _ _ _ (subscript_outside _ _ _ Hidx)).
  reflexivity.
Qed.

(** A line that is no integer ends the run with "Invalid input" and
    status 1. *)
Lemma convert_station_invalid_input station_str line rest w :
  1 < len (hafas_locations station_str) ->
  stdin w = line :: rest ->
  int line = None ->
  convert_station_str_to_station station_str w =
    (SysExit 1,
     written
       (answered (written w (Printed "Found the following stations:"
                               :: listing (hafas_locations station_str)))
          "Please select the station you want to use: " rest)
       [Printed "Invalid input"]).
Proof.
  intros Hmany Hin Hint; rewrite (convert_station_many _ w Hmany).
  unfold try_except.
  rewrite (bind_return _ _ _ (input_line _ (written w _) Hin)).
  rewrite (bind_raise _ _ _ (py_int_malformed _ _ Hint)).
  reflexivity.
Qed.

(** C1. With [k > 1] candidates a selection of 0, or of a negative
    number down to [1 - k], is not refused: [locations[n - 1]] then
    counts from the end of the list, and the script returns the
    candidate at position [k + n - 1], the last one for 0. *)
Theorem nonpositive_selection_returns_station station_str line rest n w :
  1 < len (hafas_locations station_str) ->
  stdin w = line :: rest ->
  int line = Some n ->
  - len (hafas_locations station_str) < n <= 0 ->
  exists station,
    nth_error (hafas_locations station_str)
      (Z.to_nat (len (hafas_locations station_str) + n - 1)) = Some station /\
    fst (convert_station_str_to_station station_str w) = Return station.
Proof.
  intros Hmany Hin Hint Hn.
  assert (Hidx : index (hafas_locations station_str) (n - 1) =
                 nth_error (hafas_locations station_str)
                   (Z.to_nat (len (hafas_locations station_str) + (n - 1))))
    by (apply index_from_end; lia).
  replace (len (hafas_locations station_str) + (n - 1))
    with (len (hafas_locations station_str) + n - 1) in Hidx by lia.
  destruct (nth_error (hafas_locations station_str)
              (Z.to_nat (len (hafas_locations station_str) + n - 1)))
    as [station|] eqn:E.
  - exists station; split; [reflexivity|].
    rewrite (convert_station_selected _ _ Hmany Hin Hint Hidx); reflexivity.
  - apply nth_error_None in E; unfold len in *; lia.
Qed.

(** A single candidate is announced and returned; nothing is asked. *)
Lemma convert_station_single station_str station w :
  hafas_locations station_str = [station] ->
  convert_station_str_to_station station_str w =
    (Return station,
     written w [Printed ("Found the following station: "
                           ++ str_station station)]).
Proof.
  intros Hone; unfold convert_station_str_to_station; rewrite Hone; reflexivity.
Qed.

End Properties.

(** * Further properties of the script *)

Section Coverage.
Context {lib : PyLib} {hafas_client : HafasClient} {std : PyStd}.
Local Open Scope py_scope.

(** ** The map as a whole *)

Lemma rendered_no_control only (l : list Leg) : forall tc,
  filter (fun e => negb (is_circle e || is_polyline e)) (rendered only tc l) = [].
Proof.
  induction l as [|leg l IH]; intros tc; simpl; [reflexivity|].
  rewrite filter_app; simpl; rewrite IH, app_nil_r.
  unfold leg_markers; destruct only; [reflexivity|].
  induction (stopovers leg) as [|s ss IHs]; simpl; [reflexivity | exact IHs].
Qed.

Lemma rendered_layers only (l : list Leg) : forall tc,
  rendered only tc l =
    flat_map (fun '(i, leg) =>
                leg_markers only leg
                  ++ [PolyLine (leg_points only leg) (colorFor i)])%list
      (enumerate_from tc l).
Proof.
  induction l as [|leg l IH]; intros tc; simpl; [reflexivity|].
  rewrite IH, <- app_assoc; reflexivity.
Qed.

(** X1. The map [draw] returns is centred on the origin of the first leg
    with zoom 8, in both modes, and carries the two controls, locate
    before measure, ahead of everything drawn; it carries no other
    control. *)
Theorem map_centre_and_controls journey j first rest only w :
  nth_error (heap w) journey = Some j ->
  legs j = first :: rest ->
  exists map,
    draw journey only w = (Return map, w) /\
    map_location map = (latitude (origin first), longitude (origin first)) /\
    zoom_start map = 8 /\
    firstn 2 (children map) = [LocateControl; MeasureControl] /\
    filter (fun e => negb (is_circle e || is_polyline e)) (children map) =
      [LocateControl; MeasureControl].
Proof.
  intros Hj Hlegs; eexists; split; [apply (draw_at _ only _ Hj Hlegs)|].
  simpl; rewrite rendered_no_control; auto.
Qed.

(** X2. After the two controls the children of the map go leg by leg, in
    the order of the legs: the markers of a leg, in the order of travel,
    then the polyline of that leg. *)
Theorem map_layers journey j only w :
  nth_error (heap w) journey = Some j ->
  legs j <> [] ->
  exists map,
    draw journey only w = (Return map, w) /\
    children map =
      LocateControl :: MeasureControl
        :: flat_map (fun '(i, leg) =>
                       leg_markers only leg
                         ++ [PolyLine (leg_points only leg) (colorFor i)])%list
             (enumerate (legs j)).
Proof.
  intros Hj Hlegs; destruct (first_leg Hlegs) as (first & rest & E).
  eexists; split; [apply (draw_at _ only _ Hj E)|].
  simpl; rewrite rendered_layers; reflexivity.
Qed.

Lemma markers_points only (l : list Leg) :
  flat_map points_of (flat_map (leg_markers only) l) =
  flat_map (leg_points only) l.
Proof.
  induction l as [|leg l IH]; simpl; [reflexivity|].
  rewrite flat_map_app, IH; f_equal.
  unfold leg_markers, leg_points; destruct only; [reflexivity|].
  induction (stopovers leg) as [|s ss IHs]; simpl; [|rewrite IHs]; reflexivity.
Qed.

Lemma polylines_points only (l : list Leg) : forall tc,
  flat_map points_of
    (List.map (fun '(i, leg) => PolyLine (leg_points only leg) (colorFor i))
       (enumerate_from tc l)) =
  flat_map (leg_points only) l.
Proof.
  induction l as [|leg l IH]; intros tc; simpl; [|rewrite IH]; reflexivity.
Qed.

(** X3. In both modes the polylines of the map, taken in order, pass
    through exactly the positions of its markers, taken in order: every
    point of a route line has its marker and every marker lies on a route
    line. *)
Theorem polylines_through_markers journey j only w :
  nth_error (heap w) journey = Some j ->
  legs j <> [] ->
  exists map,
    draw journey only w = (Return map, w) /\
    flat_map points_of (polylines map) = flat_map points_of (circles map).
Proof.
  intros Hj Hlegs; destruct (first_leg Hlegs) as (first & rest & E).
  eexists; split; [apply (draw_at _ only _ Hj E)|].
  unfold polylines, circles; simpl children; simpl filter.
  rewrite polylines_rendered, circles_rendered.
  rewrite polylines_points, markers_points; reflexivity.
Qed.

Lemma markers_count only (l : list Leg) :
  List.length (flat_map (leg_markers only) l) =
    if only then (2 * List.length l)%nat
    else List.length (flat_map stopovers l).
Proof.
  induction l as [|leg l IH]; simpl; [destruct only; reflexivity|].
  rewrite length_app, IH; unfold leg_markers; destruct only; simpl.
  - lia.
  - rewrite length_app, length_map; reflexivity.
Qed.

(** X4. The number of markers on the map: in detailed mode the number of
    stopovers of all legs together, in transfer-only mode two for every
    leg. *)
Theorem marker_count journey j only w :
  nth_error (heap w) journey = Some j ->
  legs j <> [] ->
  exists map,
    draw journey only w = (Return map, w) /\
    List.length (circles map) =
      if only then (2 * List.length (legs j))%nat
      else List.length (flat_map stopovers (legs j)).
Proof.
  intros Hj Hlegs; destruct (first_leg Hlegs) as (first & rest & E).
  eexists; split; [apply (draw_at _ only _ Hj E)|].
  unfold circles; simpl children; simpl filter.
  rewrite circles_rendered; apply markers_count.
Qed.

Lemma store_at (l : list Journey) : forall journey j j',
  nth_error l journey = Some j ->
  nth_error (store l journey j') journey = Some j'.
Proof.
  induction l as [|x l IH]; intros [|k] j j' H; simpl in *;
    try discriminate; [reflexivity | eapply IH; exact H].
Qed.

Lemma rendered_without_stopovers (l : list Leg) : forall tc,
  rendered true tc
    (List.map (fun leg =>
                 {| origin := origin leg;
                    destination := destination leg;
                    departure := departure leg;
                    arrival := arrival leg;
                    stopovers := [] |}) l) =
  rendered true tc l.
Proof.
  induction l as [|leg l IH]; intros tc; simpl; [|rewrite IH]; reflexivity.
Qed.

(** X5. Transfer-only mode does not look at stopovers: the journey with
    the stopovers of all its legs removed is drawn the same, and fails the
    same when it has no leg. *)
Theorem transfer_only_ignores_stopovers journey j w :
  nth_error (heap w) journey = Some j ->
  fst (draw journey true
         {| stdin := stdin w;
            console := console w;
            heap := store (heap w) journey (without_stopovers j);
            files := files w |}) =
  fst (draw journey true w).
Proof.
  intros Hj.
  set (w' := {| stdin := stdin w;
                console := console w;
                heap := store (heap w) journey (without_stopovers j);
                files := files w |}).
  assert (Hj' : nth_error (heap w') journey = Some (without_stopovers j))
    by (apply (store_at _ _ (without_stopovers j) Hj)).
  destruct (legs j) as [|first rest] eqn:E.
  - rewrite (draw_without_legs _ true w Hj E).
    rewrite (draw_without_legs _ true w' Hj'); [reflexivity|].
    unfold without_stopovers; rewrite E; reflexivity.
  - rewrite (draw_at _ true w Hj E).
    erewrite (draw_at _ true w' Hj');
      [|unfold without_stopovers; rewrite E; reflexivity].
    simpl; rewrite rendered_without_stopovers; reflexivity.
Qed.

(** ** Saving the map *)

(** X6. A journey without legs is not drawn: [journey.legs[0]] raises
    IndexError before a map exists, in both modes, and
    [draw_and_save_to_file] saves no file. *)
Theorem no_legs_nothing_saved journey j only map_filename w :
  nth_error (heap w) journey = Some j ->
  legs j = [] ->
  draw journey only w = (Raise IndexError, w) /\
  draw_and_save_to_file journey only map_filename w = (Raise IndexError, w).
Proof.
  intros Hj Hlegs.
  pose proof (draw_without_legs _ only w Hj Hlegs) as Hdraw.
  split; [exact Hdraw|].
  unfold draw_and_save_to_file; apply (bind_raise _ _ _ Hdraw).
Qed.


(** ** One question per station *)

Lemma listing_no_prompt (locations : list Station) :
  filter is_prompt (listing locations) = [].
Proof.
  unfold listing, enumerate.
  generalize 0, (slice_to locations 5); intros start l; revert start.
  induction l as [|x l IH]; intros start; simpl; [reflexivity | apply IH].
Qed.

(** X8. With [k > 1] candidates and a selection [n] from 1 to [k], the
    script prints the heading, the first [min(k, 5)] candidates numbered
    from 1 in the order of the client, asks once, takes one line and
    returns candidate [n - 1]; this holds also for a candidate beyond the
    five that were shown. *)
Theorem station_selection_in_range station_str line rest n w :
  1 < len (hafas_locations station_str) ->
  stdin w = line :: rest ->
  int line = Some n ->
  1 <= n <= len (hafas_locations station_str) ->
  exists station shown,
    nth_error (hafas_locations station_str) (Z.to_nat (n - 1)) = Some station /\
    convert_station_str_to_station station_str w =
      (Return station,
       {| stdin := rest;
          console :=
            (console w
               ++ Printed "Found the following stations:" :: shown
               ++ [Prompted "Please select the station you want to use: "])%list;
          heap := heap w;
          files := files w |}) /\
    List.length shown = Nat.min 5 (List.length (hafas_locations station_str)) /\
    forall i location,
      (i < 5)%nat ->
      nth_error (hafas_locations station_str) i = Some location ->
      nth_error shown i =
        Some (Printed (str_int (Z.of_nat i + 1) ++ ": " ++ name location)).
Proof.
  intros Hmany Hin Hint Hn.
  destruct (index_some_inside (hafas_locations station_str) (i := n - 1))
    as [station Hidx]; [lia|].
  destruct (listing_numbered (hafas_locations station_str)) as [Hlen Hshown].
  exists station, (listing (hafas_locations station_str)).
  split; [rewrite <- Hidx, index_inside by lia; reflexivity|].
  split; [|split; [exact Hlen | exact Hshown]].
  rewrite (convert_station_selected _ _ Hmany Hin Hint Hidx).
  unfold answered, written; simpl.
  rewrite <- app_assoc; reflexivity.
Qed.

(** X9. When the input ends at the station prompt, [input] raises
    EOFError; neither [except] clause names it, so it leaves the function
    uncaught, after the candidates and the prompt were written. *)
Theorem station_prompt_end_of_input station_str w :
  1 < len (hafas_locations station_str) ->
  stdin w = [] ->
  convert_station_str_to_station station_str w =
    (Raise EOFError,
     written w
       (Printed "Found the following stations:"
          :: listing (hafas_locations station_str)
          ++ [Prompted "Please select the station you want to use: "])%list).
Proof.
  intros Hmany Hin; rewrite (convert_station_many _ w Hmany).
  unfold try_except, bind, input, written; simpl; rewrite Hin.
  rewrite <- app_assoc; reflexivity.
Qed.

(** X10. Whatever the client finds and whatever the user types, one call
    of [convert_station_str_to_station] asks at most once and takes at
    most one line of input (there is no second try); it only adds to the
    console, and it touches neither the journeys nor the saved maps. *)
Theorem convert_station_asks_at_most_once station_str w :
  let w' := snd (convert_station_str_to_station station_str w) in
  (stdin w' = stdin w \/ stdin w' = tl (stdin w)) /\
  (exists es, console w' = (console w ++ es)%list /\ (asked es <= 1)%nat) /\
  heap w' = heap w /\
  files w' = files w.
Proof.
  cbv zeta.
  destruct (hafas_locations station_str) as [|x [|y l]] eqn:E.
  - unfold convert_station_str_to_station; rewrite E; simpl.
    repeat split; auto.
    eexists; split; [reflexivity | unfold asked; simpl; lia].
  - unfold convert_station_str_to_station; rewrite E; simpl.
    repeat split; auto.
    eexists; split; [reflexivity | unfold asked; simpl; lia].
  - assert (Hmany : 1 < len (hafas_locations station_str))
      by (rewrite E; unfold len; simpl List.length; lia).
    rewrite (convert_station_many _ w Hmany).
    pose proof (listing_no_prompt (hafas_locations station_str)) as Hquiet.
    assert (Hasked : forall tail,
      (asked tail <= 1)%nat ->
      (asked (Printed "Found the following stations:"
                :: listing (hafas_locations station_str) ++ tail) <= 1)%nat).
    { intros tail Htail; unfold asked in *; simpl.
      rewrite filter_app, Hquiet; exact Htail. }
    unfold try_except, bind, input, py_int, subscript, raise, ret, print,
      sys_exit; simpl stdin.
    destruct (stdin w) as [|line rest] eqn:Hin; simpl.
    + repeat split; auto.
      eexists; split; [rewrite <- app_assoc; reflexivity|].
      apply Hasked; unfold asked; simpl; lia.
    + destruct (int line) as [n|]; simpl.
      * destruct (index (hafas_locations station_str) (n - 1)); simpl.
        -- repeat split; auto.
           eexists; split; [rewrite <- app_assoc; reflexivity|].
           apply Hasked; unfold asked; simpl; lia.
        -- repeat split; auto.
           eexists; split; [rewrite <- !app_assoc; reflexivity|].
           apply Hasked; unfold asked; simpl; lia.
      * repeat split; auto.
        eexists; split; [rewrite <- !app_assoc; reflexivity|].
        apply Hasked; unfold asked; simpl; lia.
Qed.

(** ** The journey selected *)

(** X11. A selection [select_route] returns is a position of the list:
    [journeys[route_selection]] cannot fail after it, and it is the
    element at that position counted from the front, never one counted
    from the end. *)
Theorem select_route_returns_position journeys w n w' :
  select_route journeys w = (Return n, w') ->
  0 <= n < len journeys /\
  exists journey,
    nth_error journeys (Z.to_nat n) = Some journey /\
    subscript journeys n w' = (Return journey, w').
Proof.
  unfold select_route, bind, input, py_int, raise, ret, print, sys_exit.
  destruct (stdin w) as [|line rest]; [discriminate|]; simpl.
  destruct (int line) as [m|]; [|discriminate]; simpl.
  destruct ((m <? 0) || (m >=? len journeys)) eqn:E; [discriminate|].
  intros H; injection H as <- <-.
  rewrite Z.geb_leb in E; apply orb_false_iff in E; destruct E as [E0 E1].
  apply Z.ltb_ge in E0; apply Z.leb_gt in E1.
  split; [lia|].
  destruct (index_some_inside journeys (i := m)) as [journey Hidx]; [lia|].
  exists journey; split.
  - rewrite <- Hidx, index_inside by lia; reflexivity.
  - apply subscript_at; exact Hidx.
Qed.

(** X12. What [select_route] does with an integer [n]: inside
    [0, len(journeys))] it returns [n] and writes only the prompt; outside,
    it prints "Invalid selection" and exits with status 1. With no journey
    found every integer is outside. *)
Theorem select_route_decision journeys line rest n w :
  stdin w = line :: rest ->
  int line = Some n ->
  (0 <= n < len journeys ->
     select_route journeys w =
       (Return n,
        answered w "Please select the journey you want to use: " rest)) /\
  (n < 0 \/ len journeys <= n ->
     select_route journeys w =
       (SysExit 1,
        written (answered w "Please select the journey you want to use: " rest)
          [Printed "Invalid selection"])) /\
  (journeys = [] ->
     select_route journeys w =
       (SysExit 1,
        written (answered w "Please select the journey you want to use: " rest)
          [Printed "Invalid selection"])).
Proof.
  intros Hin Hint; split; [|split].
  - apply (select_route_in_range journeys w Hin Hint).
  - apply (select_route_out_of_range journeys w Hin Hint).
  - intros ->; apply (select_route_out_of_range [] w Hin Hint).
    unfold len; simpl; lia.
Qed.

(** ** The script from the stations to the saved map *)

Lemma journeys_query_at origin destination date w :
  journeys_query origin destination date w =
    (Return (seq (List.length (heap w))
               (List.length (hafas_journeys origin destination date))),
     {| stdin := stdin w;
        console := console w;
        heap := heap w ++ hafas_journeys origin destination date;
        files := files w |}).
Proof. reflexivity. Qed.





(** X14. A station that is not found ends the script where it stands: for
    the start station nothing but the message is written, and for the
    destination the client is not asked for journeys. No journey is
    stored, no map saved. *)
Theorem main_stops_at_unknown_station start_station_str
    destination_station_str start_time w :
  (hafas_locations start_station_str = [] ->
   main start_station_str destination_station_str start_time w =
     (SysExit 1,
      written w [Printed ("Could not find any stations with the name "
                            ++ start_station_str)])) /\
  (forall start_station w1,
     convert_station_str_to_station start_station_str w
       = (Return start_station, w1) ->
     hafas_locations destination_station_str = [] ->
     main start_station_str destination_station_str start_time w =
       (SysExit 1,
        written w1 [Printed ("Could not find any stations with the name "
                               ++ destination_station_str)])).
Proof.
  split.
  - intros Hnone; unfold main.
    apply bind_exit.
    unfold convert_station_str_to_station; rewrite Hnone; reflexivity.
  - intros start_station w1 Hstart Hnone; unfold main.
    rewrite (bind_return _ _ _ Hstart).
    apply bind_exit.
    unfold convert_station_str_to_station; rewrite Hnone; reflexivity.
Qed.

(** X15. When the client finds no journey the script still announces
    "Found 0 possible routes", still asks for a selection, and turns
    every integer down: it exits with status 1 and saves nothing. *)
Theorem main_without_journeys start_station_str destination_station_str
    start_time start_station destination_station w w1 w2 line rest n :
  convert_station_str_to_station start_station_str w
    = (Return start_station, w1) ->
  convert_station_str_to_station destination_station_str w1
    = (Return destination_station, w2) ->
  hafas_journeys start_station destination_station start_time = [] ->
  stdin w2 = line :: rest ->
  int line = Some n ->
  main start_station_str destination_station_str start_time w =
    (SysExit 1,
     {| stdin := rest;
        console :=
          (console w2
             ++ [Printed ("Found 0 possible routes for your trip from "
                            ++ name start_station ++ " to "
                            ++ name destination_station ++ " at "
                            ++ str_datetime start_time);
                 Prompted "Please select the journey you want to use: ";
                 Printed "Invalid selection"])%list;
        heap := heap w2;
        files := files w2 |}).
Proof.
  intros Hstart Hdest Hnone Hin Hint; unfold main.
  rewrite (bind_return _ _ _ Hstart), (bind_return _ _ _ Hdest).
  rewrite (bind_return _ _ _ (journeys_query_at _ _ _ w2)), Hnone.
  assert (Hout : n < 0 \/ len (@nil addr) <= n) by (unfold len; simpl; lia).
  simpl seq; unfold print_routes; simpl for_each.
  rewrite (bind_return _ _ _ (bind_return _ _ _ (print_written _ _))).
  match goal with
  | |- bind _ _ ?w4 = _ =>
      rewrite (bind_exit _ _ _
                 (select_route_out_of_range [] (n := n) w4 Hin Hint Hout))
  end.
  unfold written, answered; simpl.
  rewrite app_nil_r, <- !app_assoc; reflexivity.
Qed.

(** ** What the command line leaves out *)


(** X17. A start time typed in another format ends the whole script with
    "Invalid time format" and status 1, whatever the other options are:
    no station is asked for or looked up, no journey stored, no map
    saved. *)
Theorem invalid_time_format_stops_script given_start given_destination
    answer text rest w :
  stdin w = answer :: text :: rest ->
  lower answer <> "y" ->
  strptime text "%Y-%m-%dT%H:%M" = None ->
  script {| start_station_str := given_start;
            destination_station_str := given_destination;
            start_time := None |} w =
    (SysExit 1,
     {| stdin := rest;
        console :=
          (console w
             ++ [Printed "No start time specified. Do you want to use the current time?";
                 Prompted "y/n: ";
                 Prompted "Please enter the start time in the format YYYY-MM-DDTHH:MM: ";
                 Printed "Invalid time format"])%list;
        heap := heap w;
        files := files w |}).
Proof.
  intros Hin Hno Htext.
  apply String.eqb_neq in Hno.
  unfold script, complete_arguments, bind, print, input, ret, try_except,
    py_strptime, raise, sys_exit; simpl.
  rewrite Hin, Hno; simpl; rewrite Htext; simpl.
  rewrite <- !app_assoc; reflexivity.
Qed.

(** X18. Only what is missing is asked for. With all three options given
    the script goes straight to the station lookup; with the time given
    and both names missing it asks for the start station, then for the
    destination, and takes the two lines as they are typed. *)
Theorem missing_stations_asked_in_order given_time w :
  (forall given_start given_destination,
     script {| start_station_str := Some given_start;
               destination_station_str := Some given_destination;
               start_time := Some given_time |} w =
       main given_start given_destination given_time w) /\
  (forall first second rest,
     stdin w = first :: second :: rest ->
     script {| start_station_str := None;
               destination_station_str := None;
               start_time := Some given_time |} w =
       main first second given_time
         {| stdin := rest;
            console :=
              (console w
                 ++ [Prompted "Please enter the name of the start station: ";
                     Prompted "Please enter the name of the destination station: "])%list;
            heap := heap w;
            files := files w |}).
Proof.
  split.
  - intros given_start given_destination; reflexivity.
  - intros first second rest Hin.
    unfold script, complete_arguments; simpl.
    assert (Hsecond :
      input "Please enter the name of the destination station: "
        (answered w "Please enter the name of the start station: "
           (second :: rest)) =
      (Return second,
       answered
         (answered w "Please enter the name of the start station: "
            (second :: rest))
         "Please enter the name of the destination station: " rest))
      by (apply input_line; reflexivity).
    match goal with
    | |- bind ?m ?k w = _ =>
        assert (Hasked : m w =
          (Return (first, second, given_time),
           answered
             (answered w "Please enter the name of the start station: "
                (second :: rest))
             "Please enter the name of the destination station: " rest))
    end.
    { rewrite (bind_return _ _ _ (eq_refl : ret given_time w = (Return given_time, w))).
      rewrite (bind_return _ _ _ (input_line _ w Hin)).
      rewrite (bind_return _ _ _ Hsecond); reflexivity. }
    rewrite (bind_return _ _ _ Hasked).
    unfold answered; simpl; rewrite <- app_assoc; reflexivity.
Qed.

(** ** A map is saved when the script returns, and only then *)


Lemma keeps_files_raise {A} e : keeps_files (@raise _ A e).
Proof. intros w; reflexivity. Qed.





















(** ** The other ends of the station prompt *)

(** X20. With [k > 1] candidates the two selections the script refuses:
    an integer above [k] or not above [-k] ends the run with "Invalid
    index", a line that is no integer with "Invalid input"; both with
    status 1, after one line was read, and without a second question. *)
Theorem station_selection_refused station_str line rest w :
  1 < len (hafas_locations station_str) ->
  stdin w = line :: rest ->
  let asked_once :=
    answered (written w (Printed "Found the following stations:"
                           :: listing (hafas_locations station_str)))
      "Please select the station you want to use: " rest in
  (forall n,
     int line = Some n ->
     len (hafas_locations station_str) < n
       \/ n <= - len (hafas_locations station_str) ->
     convert_station_str_to_station station_str w =
       (SysExit 1, written asked_once [Printed "Invalid index"])) /\
  (int line = None ->
   convert_station_str_to_station station_str w =
     (SysExit 1, written asked_once [Printed "Invalid input"])).
Proof.
  intros Hmany Hin; cbv zeta; split.
  - intros n Hint Hn.
    apply (convert_station_invalid_index _ w Hmany Hin Hint Hn).
  - intros Hint.
    apply (convert_station_invalid_input _ w Hmany Hin Hint).
Qed.

(** X21. A name with exactly one candidate is resolved without the user:
    the station is announced and returned, nothing is asked and no input
    is taken. *)
Theorem single_station_not_asked station_str station w :
  hafas_locations station_str = [station] ->
  convert_station_str_to_station station_str w =
    (Return station,
     written w [Printed ("Found the following station: "
                           ++ str_station station)]) /\
  stdin (snd (convert_station_str_to_station station_str w)) = stdin w /\
  exists es,
    console (snd (convert_station_str_to_station station_str w))
      = (console w ++ es)%list /\
    asked es = 0%nat.
Proof.
  intros Hone.
  rewrite (convert_station_single _ w Hone); repeat split.
  eexists; split; reflexivity.
Qed.

(** ** Journeys without legs, and the markers of transfer-only mode *)

(** X22. A journey without legs cannot be summarised: [journey.legs[0]]
    raises IndexError, and the listing of the journeys stops there, after
    its heading, with that exception. *)
Theorem journey_without_legs_not_summarised i journey j start_station
    destination_station start_time w :
  nth_error (heap w) journey = Some j ->
  legs j = [] ->
  describe i journey w = (Raise IndexError, w) /\
  print_routes [journey] start_station destination_station start_time w =
    (Raise IndexError,
     written w [Printed ("Found 1 possible routes for your trip from "
                           ++ name start_station ++ " to "
                           ++ name destination_station ++ " at "
                           ++ str_datetime start_time)]).
Proof.
  intros Hj Hlegs.
  assert (Hd : forall k w0, heap w0 = heap w ->
                 describe k journey w0 = (Raise IndexError, w0)).
  { intros k w0 Hheap; unfold describe.
    assert (Hj0 : nth_error (heap w0) journey = Some j)
      by (rewrite Hheap; exact Hj).
    rewrite (bind_return _ _ _ (load_at _ _ Hj0)), Hlegs; simpl.
    rewrite (bind_return _ _ _ (load_at _ _ Hj0)), Hlegs; reflexivity. }
  split; [apply Hd; reflexivity|].
  unfold print_routes.
  rewrite (bind_return _ _ _ (print_written _ w)); simpl for_each.
  match goal with
  | |- bind _ _ ?w1 = _ =>
      rewrite (bind_raise _ _ _ (bind_raise _ _ _ (Hd 0 w1 eq_refl)))
  end.
  reflexivity.
Qed.

Lemma transfer_popups (l : list Leg) :
  List.map popup_of (flat_map (leg_markers true) l) =
  flat_map (fun leg =>
              [Some (name (origin leg) ++ " - "
                       ++ strftime (departure leg) time_format);
               Some (name (destination leg) ++ " - "
                       ++ strftime (arrival leg) time_format)]) l.
Proof.
  induction l as [|leg l IH]; simpl; [|rewrite IH]; reflexivity.
Qed.

(** X23. In transfer-only mode every leg gets two markers, at its origin
    and at its destination in this order; the popup of the first gives
    the name of the origin and the departure of the leg, the popup of the
    second the name of the destination and the arrival of the leg. *)
Theorem transfer_only_markers journey j w :
  nth_error (heap w) journey = Some j ->
  legs j <> [] ->
  exists map,
    draw journey true w = (Return map, w) /\
    List.map popup_of (circles map) =
      flat_map (fun leg =>
                  [Some (name (origin leg) ++ " - "
                           ++ strftime (departure leg) time_format);
                   Some (name (destination leg) ++ " - "
                           ++ strftime (arrival leg) time_format)])
        (legs j) /\
    flat_map points_of (circles map) =
      flat_map (fun leg =>
                  [(latitude (origin leg), longitude (origin leg));
                   (latitude (destination leg), longitude (destination leg))])
        (legs j).
Proof.
  intros Hj Hlegs; destruct (first_leg Hlegs) as (first & rest & E).
  eexists; split; [apply (draw_at _ true _ Hj E)|].
  unfold circles; simpl children; simpl filter.
  rewrite circles_rendered; split.
  - apply transfer_popups.
  - rewrite markers_points; reflexivity.
Qed.

End Coverage.

(** * The script on the sample runtime *)

#[local] Existing Instance Sample.lib.
#[local] Existing Instance Sample.client.

Local Open Scope nat_scope.

Lemma nonpositive_selection_example :
  hafas_locations "Berlin Hbf"
    = [Sample.berlin; Sample.berlin_tief; Sample.berlin_sbahn] /\
  int "0" = Some 0%Z /\
  fst (convert_station_str_to_station "Berlin Hbf" (Sample.world0 ["0"]))
    = Return Sample.berlin_sbahn.
Proof.
  split; [reflexivity|]. split; [reflexivity|].
  destruct (nonpositive_selection_returns_station "Berlin Hbf"
              (line := "0") (rest := []) (n := 0%Z) (Sample.world0 ["0"]))
    as (station & Hnth & Hrun);
    [ reflexivity | reflexivity | reflexivity
    | split; [reflexivity | discriminate] | ].
  injection Hnth as <-; exact Hrun.
Defined.

Lemma malformed_route_selection_example :
  int "first" = None /\
  select_route [0; 1; 2] (Sample.world1 ["first"]) =
    (Raise ValueError,
     answered (Sample.world1 ["first"])
       "Please select the journey you want to use: " []).
Proof.
  split; [reflexivity|].
  apply (malformed_route_selection_uncaught [0; 1; 2]
           (line := "first") (rest := []) (Sample.world1 ["first"]));
    reflexivity.
Defined.

Lemma detailed_popup_example :
  exists map,
    draw 0 false (Sample.world1 []) = (Return map, Sample.world1 []) /\
    List.map popup_of (circles map) =
      [ Some "Berlin Hbf - 09:00 01.05.2024";
        Some "Nauen - 09:20 01.05.2024";
        Some "Wittenberge - unknown" ]%string.
Proof.
  destruct (detailed_popup_timestamp 0 (j := Sample.trip) (Sample.world1 []))
    as (map & Hrun & Hpopups & _); [reflexivity | discriminate |].
  exists map; split; [exact Hrun | exact Hpopups].
Defined.

Lemma polyline_colours_example :
  exists map,
    draw 2 true (Sample.world1 []) = (Return map, Sample.world1 []) /\
    List.map color_of (polylines map) =
      List.map Some
        ["Red"; "Blue"; "Green"; "Black"; "White"; "Red"; "Blue"]%string.
Proof.
  destruct (polyline_colours_cycle 2 (j := Sample.seven) true (Sample.world1 []))
    as (map & Hrun & _ & Hseven & _); [reflexivity | discriminate |].
  exists map; split; [exact Hrun | apply Hseven; reflexivity].
Defined.

Lemma single_leg_example :
  (exists map,
     draw 1 false (Sample.world1 []) = (Return map, Sample.world1 []) /\
     polylines map =
       [PolyLine [(52525, 13369); (52612, 12885); (53001, 11752)]%Z "Red"] /\
     List.length (circles map) = 3) /\
  (exists map,
     draw 1 true (Sample.world1 []) = (Return map, Sample.world1 []) /\
     polylines map = [PolyLine [(52525, 13369); (53001, 11752)]%Z "Red"] /\
     List.length (circles map) = 2).
Proof.
  destruct (single_leg_rendering 1 (leg := Sample.leg0) (took := 2700%Z)
              (Sample.world1 []) eq_refl)
    as [(m1 & Hrun1 & Hline1 & _ & Hcircles1)
        (m2 & Hrun2 & Hline2 & _ & Hcircles2)].
  split; [exists m1 | exists m2]; repeat split; assumption.
Defined.

Lemma one_polyline_per_leg_example :
  exists map,
    draw 0 false (Sample.world1 []) = (Return map, Sample.world1 []) /\
    List.length (polylines map) = 2 /\
    nth_error (polylines map) 1 = Some (PolyLine [] "Blue").
Proof.
  destruct (one_polyline_per_leg 0 (j := Sample.trip) false (Sample.world1 []))
    as (map & Hrun & Hcount & _ & Hfew); [reflexivity | discriminate |].
  exists map; split; [exact Hrun|]. split; [exact Hcount|].
  apply (proj1 (Hfew eq_refl 1 Sample.leg1 eq_refl)); reflexivity.
Defined.

Lemma convert_station_not_found_example :
  hafas_locations "Nowhere" = [] /\
  convert_station_str_to_station "Nowhere" (Sample.world0 ["1"]) =
    (SysExit 1,
     {| stdin := ["1"]%string;
        console :=
          [Printed "Could not find any stations with the name Nowhere"];
        heap := [];
        files := [] |}).
Proof.
  split; [reflexivity|].
  exact (proj1 (convert_station_not_found "Nowhere" (Sample.world0 ["1"])
                  eq_refl)).
Defined.

Lemma routes_summaries_example :
  exists lines,
    print_routes [0; 1] Sample.berlin Sample.hamburg
      (Sample.mkClock 2024 5 1 9 0) (Sample.world1 []) =
      (Return tt,
       written (Sample.world1 [])
         (Printed "Found 2 possible routes for your trip from Berlin Hbf to Hamburg Hbf at 2024-05-01 09:00:00"
            :: List.map Printed lines)) /\
    nth_error lines 0 =
      Some "- 0: Journey starts at 09:00 01.05.2024 and ends at 10:30 01.05.2024. The complete journey takes 1:30:00 and has 1 changes (at Wittenberge)"%string /\
    nth_error lines 1 =
      Some "- 1: Journey starts at 09:00 01.05.2024 and ends at 09:45 01.05.2024. The complete journey takes 0:45:00 and has no changes"%string.
Proof.
  destruct (routes_summaries (journeys := [0; 1]) Sample.berlin Sample.hamburg
              (Sample.mkClock 2024 5 1 9 0) (Sample.world1 []))
    as (lines & Hrun & _ & Hlines).
  - repeat constructor; eexists; (split; [reflexivity | discriminate]).
  - exists lines; split; [exact Hrun|]. split.
    + destruct (Hlines 0 0 Sample.trip eq_refl eq_refl)
        as (first & rest & last & Hlegs & Hlast & _ & Hmany).
      injection Hlegs as <- <-; injection Hlast as <-.
      apply Hmany; discriminate.
    + destruct (Hlines 1 1 Sample.direct eq_refl eq_refl)
        as (first & rest & last & Hlegs & Hlast & Hnone & _).
      injection Hlegs as <- <-; injection Hlast as <-.
      apply Hnone; reflexivity.
Defined.

Lemma markers_are_crimson_example :
  draw 0 false (Sample.world1 []) = (Return Sample.trip_map, Sample.world1 []) /\
  Forall crimson_marker (children Sample.trip_map).
Proof.
  split; [reflexivity|].
  exact (proj1 (markers_are_crimson 0 false (Sample.world1 [])
                  (map := Sample.trip_map) (w' := Sample.world1 []) eq_refl)).
Defined.

(** ** Further runs on the sample runtime *)

#[local] Existing Instance Sample.std.

Lemma map_centre_example :
  exists map,
    draw 0 true (Sample.world1 []) = (Return map, Sample.world1 []) /\
    map_location map = (52525, 13369)%Z /\
    zoom_start map = 8%Z /\
    firstn 2 (children map) = [LocateControl; MeasureControl].
Proof.
  destruct (map_centre_and_controls 0 (j := Sample.trip) (first := Sample.leg0)
              (rest := [Sample.leg1]) true (Sample.world1 []) eq_refl eq_refl)
    as (map & Hrun & Hcentre & Hzoom & Hcontrols & _).
  exists map; repeat split; assumption.
Defined.

Lemma map_layers_example :
  exists map,
    draw 0 false (Sample.world1 []) = (Return map, Sample.world1 []) /\
    children map = children Sample.trip_map.
Proof.
  destruct (map_layers 0 (j := Sample.trip) false (Sample.world1 []))
    as (map & Hrun & Hlayers); [reflexivity | discriminate |].
  exists map; split; [exact Hrun | exact Hlayers].
Defined.

Lemma polylines_through_markers_example :
  exists map,
    draw 0 true (Sample.world1 []) = (Return map, Sample.world1 []) /\
    flat_map points_of (polylines map) = flat_map points_of (circles map).
Proof.
  apply (polylines_through_markers 0 (j := Sample.trip) true (Sample.world1 []));
    [reflexivity | discriminate].
Defined.

Lemma marker_count_example :
  (exists map,
     draw 0 false (Sample.world1 []) = (Return map, Sample.world1 []) /\
     List.length (circles map) = 3) /\
  (exists map,
     draw 0 true (Sample.world1 []) = (Return map, Sample.world1 []) /\
     List.length (circles map) = 4).
Proof.
  split.
  - apply (marker_count 0 (j := Sample.trip) false (Sample.world1 []));
      [reflexivity | discriminate].
  - apply (marker_count 0 (j := Sample.trip) true (Sample.world1 []));
      [reflexivity | discriminate].
Defined.

Lemma transfer_only_ignores_stopovers_example :
  fst (draw 0 true
         {| stdin := []; console := [];
            heap := [without_stopovers Sample.trip; Sample.direct; Sample.seven];
            files := [] |}) =
  fst (draw 0 true (Sample.world1 [])).
Proof.
  exact (transfer_only_ignores_stopovers 0 (j := Sample.trip)
           (Sample.world1 []) eq_refl).
Defined.

Lemma no_legs_nothing_saved_example :
  draw 1 false (Sample.world2 []) = (Raise IndexError, Sample.world2 []) /\
  draw_and_save_to_file 1 false "output.html" (Sample.world2 [])
    = (Raise IndexError, Sample.world2 []).
Proof.
  exact (no_legs_nothing_saved 1 (j := Sample.nowhere) false "output.html"
           (Sample.world2 []) eq_refl eq_refl).
Defined.


Lemma station_selection_example :
  fst (convert_station_str_to_station (hafas_client := Sample.wide_client)
         "Berlin" (Sample.world0 ["6"]))
    = Return Sample.hamburg /\
  List.length (listing (hafas_locations (HafasClient := Sample.wide_client) "Berlin")) = 5.
Proof.
  destruct (station_selection_in_range (hafas_client := Sample.wide_client)
              "Berlin" (line := "6") (rest := []) (n := 6%Z)
              (Sample.world0 ["6"]))
    as (station & shown & Hnth & Hrun & Hlen & _);
    [ reflexivity | reflexivity | reflexivity
    | split; discriminate | ].
  injection Hnth as <-; rewrite Hrun; split; reflexivity.
Defined.

Lemma station_prompt_end_of_input_example :
  convert_station_str_to_station "Berlin Hbf" (Sample.world0 []) =
    (Raise EOFError,
     {| stdin := [];
        console :=
          [ Printed "Found the following stations:";
            Printed "1: Berlin Hbf";
            Printed "2: Berlin Hbf (tief)";
            Printed "3: Berlin Hbf (S-Bahn)";
            Prompted "Please select the station you want to use: " ];
        heap := [];
        files := [] |}).
Proof.
  exact (station_prompt_end_of_input "Berlin Hbf" (Sample.world0 [])
           eq_refl eq_refl).
Defined.

Lemma select_route_returns_position_example :
  (0 <= 1 < 3)%Z /\
  exists journey,
    nth_error [0; 1; 2] 1 = Some journey /\
    subscript [0; 1; 2] 1%Z
      (answered (Sample.world1 ["1"])
         "Please select the journey you want to use: " []) =
      (Return journey,
       answered (Sample.world1 ["1"])
         "Please select the journey you want to use: " []).
Proof.
  exact (select_route_returns_position [0; 1; 2] (Sample.world1 ["1"])
           (n := 1%Z) eq_refl).
Defined.

Lemma select_route_decision_example :
  select_route [0; 1; 2] (Sample.world1 ["3"]) =
    (SysExit 1,
     written (answered (Sample.world1 ["3"])
                "Please select the journey you want to use: " [])
       [Printed "Invalid selection"]).
Proof.
  apply (proj1 (proj2 (select_route_decision [0; 1; 2] (line := "3")
                         (rest := []) (n := 3%Z) (Sample.world1 ["3"])
                         eq_refl eq_refl))).
  right; discriminate.
Defined.


Lemma main_without_journeys_example :
  main "Berlin Hbf" "Hamburg Hbf" (Sample.mkClock 2024 5 1 9 0)
    (Sample.world0 ["2"; "0"]) =
    (SysExit 1,
     {| stdin := [];
        console :=
          [ Printed "Found the following stations:";
            Printed "1: Berlin Hbf";
            Printed "2: Berlin Hbf (tief)";
            Printed "3: Berlin Hbf (S-Bahn)";
            Prompted "Please select the station you want to use: ";
            Printed "Found the following station: Hamburg Hbf";
            Printed "Found 0 possible routes for your trip from Berlin Hbf (tief) to Hamburg Hbf at 2024-05-01 09:00:00";
            Prompted "Please select the journey you want to use: ";
            Printed "Invalid selection" ];
        heap := [];
        files := [] |}).
Proof.
  apply (main_without_journeys (lib := Sample.lib)
            (hafas_client := Sample.client) "Berlin Hbf" "Hamburg Hbf"
            (Sample.mkClock 2024 5 1 9 0) (Sample.world0 ["2"; "0"])
            (start_station := Sample.berlin_tief)
            (destination_station := Sample.hamburg)
            (w1 := answered
                     (written (Sample.world0 ["2"; "0"])
                        (Printed "Found the following stations:"
                           :: listing [Sample.berlin; Sample.berlin_tief;
                                       Sample.berlin_sbahn]))
                     "Please select the station you want to use: "
                     ["0"%string])
            (w2 := written
                     (answered
                        (written (Sample.world0 ["2"; "0"])
                           (Printed "Found the following stations:"
                              :: listing [Sample.berlin; Sample.berlin_tief;
                                          Sample.berlin_sbahn]))
                        "Please select the station you want to use: "
                        ["0"%string])
                     [Printed "Found the following station: Hamburg Hbf"])
            (line := "0") (rest := []) (n := 0%Z));
    reflexivity.
Defined.


Lemma invalid_time_format_example :
  script {| start_station_str := None;
            destination_station_str := None;
            start_time := None |}
    (Sample.world0 ["n"; "01.05.2024 09:05"; "Berlin Hbf"]) =
    (SysExit 1,
     {| stdin := ["Berlin Hbf"%string];
        console :=
          [ Printed "No start time specified. Do you want to use the current time?";
            Prompted "y/n: ";
            Prompted "Please enter the start time in the format YYYY-MM-DDTHH:MM: ";
            Printed "Invalid time format" ];
        heap := [];
        files := [] |}).
Proof.
  refine (invalid_time_format_stops_script None None
            (answer := "n") (text := "01.05.2024 09:05")
            (rest := ["Berlin Hbf"%string])
            (Sample.world0 ["n"; "01.05.2024 09:05"; "Berlin Hbf"])
            eq_refl _ eq_refl).
  discriminate.
Defined.

Lemma station_selection_refused_example :
  convert_station_str_to_station "Berlin Hbf" (Sample.world0 ["4"]) =
    (SysExit 1,
     {| stdin := [];
        console :=
          [ Printed "Found the following stations:";
            Printed "1: Berlin Hbf";
            Printed "2: Berlin Hbf (tief)";
            Printed "3: Berlin Hbf (S-Bahn)";
            Prompted "Please select the station you want to use: ";
            Printed "Invalid index" ];
        heap := [];
        files := [] |}) /\
  convert_station_str_to_station "Berlin Hbf" (Sample.world0 ["two"]) =
    (SysExit 1,
     {| stdin := [];
        console :=
          [ Printed "Found the following stations:";
            Printed "1: Berlin Hbf";
            Printed "2: Berlin Hbf (tief)";
            Printed "3: Berlin Hbf (S-Bahn)";
            Prompted "Please select the station you want to use: ";
            Printed "Invalid input" ];
        heap := [];
        files := [] |}).
Proof.
  split.
  - refine (proj1 (station_selection_refused "Berlin Hbf" (line := "4")
                     (rest := []) (Sample.world0 ["4"]) eq_refl eq_refl)
              4%Z eq_refl _).
    left; reflexivity.
  - exact (proj2 (station_selection_refused "Berlin Hbf" (line := "two")
                    (rest := []) (Sample.world0 ["two"]) eq_refl eq_refl)
             eq_refl).
Defined.

Lemma single_station_example :
  convert_station_str_to_station "Hamburg Hbf" (Sample.world0 ["1"]) =
    (Return Sample.hamburg,
     {| stdin := ["1"%string];
        console := [Printed "Found the following station: Hamburg Hbf"];
        heap := [];
        files := [] |}).
Proof.
  exact (proj1 (single_station_not_asked "Hamburg Hbf" (Sample.world0 ["1"])
                  (station := Sample.hamburg) eq_refl)).
Defined.

Lemma journey_without_legs_example :
  describe 0%Z 1 (Sample.world2 []) = (Raise IndexError, Sample.world2 []) /\
  print_routes [1] Sample.berlin Sample.hamburg (Sample.mkClock 2024 5 1 9 0)
    (Sample.world2 []) =
    (Raise IndexError,
     written (Sample.world2 [])
       [Printed "Found 1 possible routes for your trip from Berlin Hbf to Hamburg Hbf at 2024-05-01 09:00:00"]).
Proof.
  exact (journey_without_legs_not_summarised 0%Z 1 (j := Sample.nowhere)
           Sample.berlin Sample.hamburg (Sample.mkClock 2024 5 1 9 0)
           (Sample.world2 []) eq_refl eq_refl).
Defined.

Lemma transfer_only_markers_example :
  exists map,
    draw 0 true (Sample.world1 []) = (Return map, Sample.world1 []) /\
    List.map popup_of (circles map) =
      [ Some "Berlin Hbf - 09:00 01.05.2024";
        Some "Wittenberge - 09:45 01.05.2024";
        Some "Wittenberge - 09:50 01.05.2024";
        Some "Hamburg Hbf - 10:30 01.05.2024" ]%string.
Proof.
  destruct (transfer_only_markers 0 (j := Sample.trip) (Sample.world1 []))
    as (map & Hrun & Hpopups & _); [reflexivity | discriminate |].
  exists map; split; [exact Hrun | exact Hpopups].
Defined.
